(** * ditty: the training orchestrator of [lib/ditty/trainer.py]

    A shallow embedding of [TrainerState] and [Trainer] and the properties
    of the checkpoint cadence, the resume path, the [max_steps] bound and
    the final mean loss.

    The external collaborators (model, optimizer, scheduler, accelerator,
    file system) are not re-implemented: every call into them is recorded
    as an [event] of the run, and the values they hand back are taken from
    the interfaces [FloatArith], [Collaborators] and [filesystem].

    Exceptions are modelled where the trainer's own lines raise them
    (indexing, [int], division, modulus, [range], a missing key) and
    where the resume path meets the file system ([os.listdir],
    [accelerator.load_state]). The forward and backward passes and the
    optimizer and scheduler steps are taken to return.

    [accelerator.save_state] refuses to write over a checkpoint that
    exists. The run records each of its calls and takes it to return;
    whether the calls of a trace do return, given the entries of the
    checkpoints directory, is decided on the trace by [saves_succeed]. *)

From stdpp Require Import base gmap strings list sorting pretty.
From Stdlib Require Import ZArith Lia Strings.Ascii.
From Stdlib Require Import Floats.PrimFloat Floats.SpecFloat Floats.FloatOps.
From Stdlib Require Import Numbers.Cyclic.Int63.Uint63.

Local Open Scope Z_scope.

(** ** Python numbers *)

(** Python's [float]: binary64 arithmetic, kept abstract. The only
    operations the trainer performs on floats are listed. *)
Class FloatArith := {
  pyfloat : Type;
  float_of_int : Z → pyfloat;
  float_add : pyfloat → pyfloat → pyfloat;
  float_div : pyfloat → pyfloat → pyfloat;
  float_eqb : pyfloat → pyfloat → bool;
  float_ltb : pyfloat → pyfloat → bool;
  float_leb : pyfloat → pyfloat → bool
}.

Inductive exn :=
| FileNotFoundError
| IndexError
| KeyError (key : string)
| TypeError
| ValueError
| ZeroDivisionError.

Inductive outcome (A : Type) :=
| Return (a : A)
| Raise (e : exn).
Arguments Return {A} a.
Arguments Raise {A} e.

Section Numbers.
Context `{FloatArith}.

(** The numbers a [TrainerState] field holds: [int] or [float]. *)
Inductive value :=
| VInt (z : Z)
| VFloat (x : pyfloat).

Definition to_float (v : value) : pyfloat :=
  match v with
  | VInt z => float_of_int z
  | VFloat x => x
  end.

(** [a + b] *)
Definition py_add (a b : value) : value :=
  match a, b with
  | VInt x, VInt y => VInt (x + y)
  | _, _ => VFloat (float_add (to_float a) (to_float b))
  end.

(** [v == 0] *)
Definition py_is_zero (v : value) : bool :=
  match v with
  | VInt z => z =? 0
  | VFloat x => float_eqb x (float_of_int 0)
  end.

(** [v > 0] *)
Definition py_gt0 (v : value) : bool :=
  match v with
  | VInt z => 0 <? z
  | VFloat x => float_ltb (float_of_int 0) x
  end.

(** [a / b]: true division, [ZeroDivisionError] on a zero divisor. *)
Definition py_truediv (a b : value) : outcome value :=
  if py_is_zero b then Raise ZeroDivisionError
  else Return (VFloat (float_div (to_float a) (to_float b))).

(** [a % b] on ints: the sign follows the divisor, as [Z.modulo] does. *)
Definition py_mod (a b : Z) : outcome Z :=
  if b =? 0 then Raise ZeroDivisionError else Return (a mod b).

(** ** TrainerState *)

Record TrainerState := {
  epoch : value;
  steps : value;
  global_loss : value
}.

(** [TrainerState()] *)
Definition TrainerState_init : TrainerState :=
  {| epoch := VInt 0; steps := VInt 0; global_loss := VInt 0 |}.

Definition state_dict (self : TrainerState) : gmap string value :=
  {[ "epoch" := epoch self;
     "steps" := steps self;
     "global_loss" := global_loss self ]}.

(** The three assignments run in order; a missing key raises at its own
    line and leaves the assignments before it in place. *)
Definition load_state_dict (self : TrainerState) (d : gmap string value)
  : outcome unit * TrainerState :=
  match d !! "epoch" with
  | None => (Raise (KeyError "epoch"), self)
  | Some e =>
      let self1 := {| epoch := e; steps := steps self;
                      global_loss := global_loss self |} in
      match d !! "steps" with
      | None => (Raise (KeyError "steps"), self1)
      | Some s =>
          let self2 := {| epoch := e; steps := s;
                          global_loss := global_loss self |} in
          match d !! "global_loss" with
          | None => (Raise (KeyError "global_loss"), self2)
          | Some g =>
              (Return tt, {| epoch := e; steps := s; global_loss := g |})
          end
      end
  end.
End Numbers.

(** ** Collaborators *)

(** What the trainer consumes from the model library and the accelerator.
    [Objs] is the prepared model, optimizer and scheduler taken together;
    the four updates are the effect of the corresponding call on them. *)
Class Collaborators `{FloatArith} := {
  Batch : Type;
  Objs : Type;
  (** the forward pass on one batch, then [loss.item()] *)
  model_loss : Objs → Batch → pyfloat;
  accelerator_backward : Objs → Batch → Objs;
  optimizer_step : Objs → Objs;
  scheduler_step : Objs → Objs;
  optimizer_zero_grad : Objs → Objs;
  (** [get_model_param_count(self.model, trainable_only=True)] *)
  get_model_param_count : Objs → Z;
  (** the builtin [int(s)]; [None] stands for its [ValueError] *)
  int_of_str : string → option Z
}.

Section Trainer.
Context `{Collaborators}.

(** A data loader: the batches it yields and its [batch_size]. *)
Record DataLoader := {
  batches : list Batch;
  batch_size : Z
}.

Inductive lr_scheduler :=
| GivenScheduler
(** [torch.optim.lr_scheduler.StepLR(optimizer, step_size=30, gamma=0.1)] *)
| DefaultStepLR.

Definition default_scheduler_factory : lr_scheduler := DefaultStepLR.

Inductive kwarg :=
| KInt (z : Z)
| KStr (s : string)
| KBool (b : bool)
| KProjectConfiguration (project_dir : string)
    (automatic_checkpoint_naming : bool).

Record Trainer := {
  scheduler : option lr_scheduler;
  use_scheduler : bool;
  grad_accum : Z;
  accelerator_kwargs : gmap string kwarg;
  fp16 : bool;
  output_dir : string;
  checkpoint_every : Z;
  load_checkpoint : bool;
  seed : option Z;
  dataset : DataLoader
}.

(** What [accelerator.load_state(path)] does: it restores the prepared
    objects and hands the saved mapping to [TrainerState.load_state_dict]
    (the state is registered for checkpointing), or it raises. *)
Inductive load_result :=
| Loaded (o : Objs) (saved : gmap string value)
| LoadFails (e : exn).

Record filesystem := {
  os_listdir : string → outcome (list string);
  accelerator_load_state : string → load_result
}.

(** A value formatted into a log line. *)
Inductive log_arg :=
| LInt (z : Z)
| LStr (s : string).

(** The calls a run makes into its collaborators, in order. A log line
    is its format string and the values formatted into it. *)
Inductive event :=
| ESetSeed (s : Z)
| EMakedirs (path : string)
| EDefaultSchedulerFactory
| EAccelerator (kwargs : gmap string kwarg)
| EPrepare (with_scheduler : bool)
| ERegisterForCheckpointing (what : string)
| EModelTrain
| EListdir (path : string)
| ELoadState (path : string)
| ESetIteration (n : Z)
| ELogInfo (template : string) (args : list log_arg)
| ELogWarning (msg : string)
| ELogWarningExn (e : exn)
| EWaitForEveryone
| ESaveState
| EUnwrapModel
| ESavePretrained (path : string)
| EAtexitRegister
| EAtexitUnregister
| ESkipFirstBatches (num_batches : value)
| EAccumulate
| EForward
| EBackward
| EOptimizerStep
| ESchedulerStep
| EZeroGrad
| EPrint (ep : Z) (batch_idx : nat) (batch_loss : value).

(** ** Construction *)

(** Truthiness of an [Optional[int]]: [None] and [0] are falsy. *)
Definition truthy (o : option Z) : bool :=
  match o with
  | None => false
  | Some z => negb (z =? 0)
  end.

Definition acc_kwargs (self : Trainer) : gmap string kwarg :=
  accelerator_kwargs self ∪
  {[ "gradient_accumulation_steps" := KInt (grad_accum self);
     "project_dir" := KStr (output_dir self);
     "project_config" := KProjectConfiguration (output_dir self) true ]}.

Definition post_init_scheduler (self : Trainer) : option lr_scheduler :=
  match scheduler self with
  | Some s => Some s
  | None => if use_scheduler self then Some default_scheduler_factory else None
  end.

(** [Trainer.__post_init__]: the calls it makes, the trainer with its
    scheduler settled, and the fresh [TrainerState]. *)
Definition post_init (self : Trainer) : list event * Trainer * TrainerState :=
  let seeding :=
    if truthy (seed self)
    then match seed self with Some s => [ESetSeed s] | None => [] end
    else [] in
  let factory :=
    if use_scheduler self && negb (bool_decide (is_Some (scheduler self)))
    then [EDefaultSchedulerFactory] else [] in
  let prepare :=
    if use_scheduler self
    then [EPrepare true; ERegisterForCheckpointing "scheduler"]
    else [EPrepare false] in
  (seeding ++ [EMakedirs (output_dir self)] ++ factory
     ++ [EAccelerator (acc_kwargs self)] ++ prepare
     ++ [ERegisterForCheckpointing "state"],
   {| scheduler := post_init_scheduler self;
      use_scheduler := use_scheduler self;
      grad_accum := grad_accum self;
      accelerator_kwargs := accelerator_kwargs self;
      fp16 := fp16 self;
      output_dir := output_dir self;
      checkpoint_every := checkpoint_every self;
      load_checkpoint := load_checkpoint self;
      seed := seed self;
      dataset := dataset self |},
   TrainerState_init).

(** ** The run monad: trainer state, emitted calls, exceptions *)

Record world := {
  state : TrainerState;
  objs : Objs
}.

Definition M (A : Type) : Type := world → outcome A * world * list event.

Definition ret {A} (a : A) : M A := λ w, (Return a, w, []).

Definition bind {A B} (m : M A) (f : A → M B) : M B := λ w,
  match m w with
  | (Return a, w1, t1) =>
      match f a w1 with
      | (o, w2, t2) => (o, w2, t1 ++ t2)
      end
  | (Raise e, w1, t1) => (Raise e, w1, t1)
  end.

Definition emit (e : event) : M unit := λ w, (Return tt, w, [e]).

Definition lift {A} (o : outcome A) : M A := λ w, (o, w, []).

Definition get_state : M TrainerState := λ w, (Return (state w), w, []).

Definition modify_state (f : TrainerState → TrainerState) : M unit := λ w,
  (Return tt, {| state := f (state w); objs := objs w |}, []).

Definition get_objs : M Objs := λ w, (Return (objs w), w, []).

Definition put_objs (o : Objs) : M unit := λ w,
  (Return tt, {| state := state w; objs := o |}, []).

(** [try: body except FileNotFoundError as e: handler e] *)
Definition try_except_FileNotFoundError (body : M unit)
  (handler : exn → M unit) : M unit := λ w,
  match body w with
  | (Raise FileNotFoundError, w1, t1) =>
      match handler FileNotFoundError w1 with
      | (o, w2, t2) => (o, w2, t1 ++ t2)
      end
  | r => r
  end.

#[local] Instance M_ret : MRet M := @ret.
#[local] Instance M_bind : MBind M := λ A B f m, bind m f.

(** ** Checkpointing *)

Definition _save_dist (self : Trainer) : M unit :=
  emit EUnwrapModel;;
  emit (ESavePretrained (output_dir self +:+ "/dist")).

(** The call of [accelerator.save_state] is recorded and taken to return;
    whether it does, given what the checkpoints directory holds, is read
    off the trace by [saves_succeed] below. *)
Definition _save (self : Trainer) (no_dist : bool) : M unit :=
  emit EWaitForEveryone;;
  emit ESaveState;;
  if negb no_dist then _save_dist self else ret tt.

(** ** Resuming from the latest checkpoint *)

Fixpoint insert_sorted (x : string) (l : list string) : list string :=
  match l with
  | [] => [x]
  | y :: r => if String.leb x y then x :: l else y :: insert_sorted x r
  end.

(** [sorted(names)]: ascending in the order of [str]. *)
Definition sorted (names : list string) : list string :=
  foldr insert_sorted [] names.

(** [l[-1]] *)
Definition last_item {A} (l : list A) : outcome A :=
  match last l with
  | Some x => Return x
  | None => Raise IndexError
  end.

(** [s.split("_")] *)
Fixpoint split_underscore (s : string) : list string :=
  match s with
  | EmptyString => [EmptyString]
  | String c r =>
      if Ascii.eqb c "_"%char then EmptyString :: split_underscore r
      else match split_underscore r with
           | h :: t => String c h :: t
           | [] => [String c EmptyString]
           end
  end.

(** [int(s)] *)
Definition py_int (s : string) : outcome Z :=
  match int_of_str s with
  | Some n => Return n
  | None => Raise ValueError
  end.

Definition checkpoints_dir (self : Trainer) : string :=
  output_dir self +:+ "/checkpoints/".

(** [self.accelerator.load_state(path)] *)
Definition load_state (fs : filesystem) (path : string) : M unit := λ w,
  match accelerator_load_state fs path with
  | Loaded o saved =>
      match load_state_dict (state w) saved with
      | (r, s) => (r, {| state := s; objs := o |}, [ELoadState path])
      end
  | LoadFails e => (Raise e, w, [ELoadState path])
  end.

(** The body of the [try] block. *)
Definition load_last_checkpoint (self : Trainer) (fs : filesystem) : M unit :=
  emit (EListdir (checkpoints_dir self));;
  names ← lift (os_listdir fs (checkpoints_dir self));
  last_cp ← lift (last_item (sorted names));
  emit (ELogInfo "Trying to load checkpoint: {}...." [LStr last_cp]);;
  load_state fs (checkpoints_dir self +:+ last_cp);;
  last_cp_num ← lift (last_item (split_underscore last_cp));
  n ← lift (py_int last_cp_num);
  emit (ESetIteration (n + 1));;
  emit (ELogInfo "Checkpoint loaded." []).

(** The start of [_train_accelerate], up to the registration of the exit
    hook. *)
Definition startup (self : Trainer) (fs : filesystem) : M unit :=
  emit EModelTrain;;
  if load_checkpoint self then
    try_except_FileNotFoundError (load_last_checkpoint self fs)
      (λ e, emit (ELogWarningExn e);;
            emit (ELogWarning "No checkpoint found, starting from scratch.");;
            _save self true)
  else _save self true.

(** ** The loop *)

(** [accelerator.skip_first_batches(dataloader, num_batches)]: the batches
    whose index is at least [num_batches]. *)
Fixpoint keep_from_index {A} (keep : nat → bool) (i : nat) (l : list A)
  : list A :=
  match l with
  | [] => []
  | x :: r =>
      if keep i then x :: keep_from_index keep (S i) r
      else keep_from_index keep (S i) r
  end.

Definition skip_first_batches (dataloader : list Batch) (num_batches : value)
  : list Batch :=
  match num_batches with
  | VInt n => drop (Z.to_nat n) dataloader
  | VFloat x =>
      keep_from_index (λ i, float_leb x (float_of_int (Z.of_nat i))) 0%nat
        dataloader
  end.

(** [self.state.global_loss += batch_loss] *)
Definition add_loss (batch_loss : value) (s : TrainerState) : TrainerState :=
  {| epoch := epoch s; steps := steps s;
     global_loss := py_add (global_loss s) batch_loss |}.

(** [self.state.steps += 1] *)
Definition incr_steps (s : TrainerState) : TrainerState :=
  {| epoch := epoch s; steps := py_add (steps s) (VInt 1);
     global_loss := global_loss s |}.

(** [self.state.epoch += 1] *)
Definition incr_epoch (s : TrainerState) : TrainerState :=
  {| epoch := py_add (epoch s) (VInt 1); steps := steps s;
     global_loss := global_loss s |}.

(** The body of the [with self.accelerator.accumulate(self.model)] block. *)
Definition train_step (self : Trainer) (ep : Z) (batch_idx : nat)
  (batch : Batch) : M unit :=
  emit EAccumulate;;
  o ← get_objs;
  emit EForward;;
  let loss := model_loss o batch in
  emit EBackward;;
  put_objs (accelerator_backward o batch);;
  o ← get_objs;
  emit EOptimizerStep;;
  put_objs (optimizer_step o);;
  (if use_scheduler self then
     o ← get_objs;
     emit ESchedulerStep;;
     put_objs (scheduler_step o)
   else ret tt);;
  o ← get_objs;
  emit EZeroGrad;;
  put_objs (optimizer_zero_grad o);;
  batch_loss ← lift (py_truediv (VFloat loss) (VInt (grad_accum self)));
  emit (EPrint ep batch_idx batch_loss);;
  modify_state (add_loss batch_loss).

(** [max_steps is not None and batch_idx >= max_steps] *)
Definition reached_max_steps (max_steps : option Z) (batch_idx : nat) : bool :=
  match max_steps with
  | Some m => m <=? Z.of_nat batch_idx
  | None => false
  end.

(** [for batch_idx, batch in enumerate(dataset)], from index [batch_idx]
    on; the [break] ends the recursion. *)
Fixpoint batch_loop (self : Trainer) (max_steps : option Z) (ep : Z)
  (batch_idx : nat) (dataset : list Batch) : M unit :=
  match dataset with
  | [] => ret tt
  | batch :: rest =>
      train_step self ep batch_idx batch;;
      modify_state incr_steps;;
      if reached_max_steps max_steps batch_idx then ret tt
      else
        r ← lift (py_mod (Z.of_nat batch_idx) (checkpoint_every self));
        (if r =? 0 then _save self false else ret tt);;
        batch_loop self max_steps ep (S batch_idx) rest
  end.

(** One iteration of the [for ep in range(...)] loop. *)
Definition epoch_iteration (self : Trainer) (max_steps : option Z) (ep : Z)
  : M unit :=
  s ← get_state;
  dataset ←
    (if py_gt0 (steps s) then
       emit (ESkipFirstBatches (steps s));;
       ret (skip_first_batches (batches (dataset self)) (steps s))
     else ret (batches (dataset self)));
  batch_loop self max_steps ep 0%nat dataset;;
  modify_state incr_epoch.

Fixpoint epoch_loop (self : Trainer) (max_steps : option Z) (eps : list Z)
  : M unit :=
  match eps with
  | [] => ret tt
  | ep :: rest =>
      epoch_iteration self max_steps ep;;
      epoch_loop self max_steps rest
  end.

(** [range(start, stop)]; a [float] start is a [TypeError]. *)
Definition py_range (start : value) (stop : Z) : outcome (list Z) :=
  match start with
  | VInt a => Return (map (λ i, a + Z.of_nat i) (seq 0 (Z.to_nat (stop - a))))
  | VFloat _ => Raise TypeError
  end.

(** [_train_accelerate] from the registration of the exit hook on. *)
Definition training_loop (self : Trainer) (epochs : Z) (max_steps : option Z)
  : M value :=
  emit EAtexitRegister;;
  s ← get_state;
  eps ← lift (py_range (epoch s) epochs);
  epoch_loop self max_steps eps;;
  emit EAtexitUnregister;;
  _save self false;;
  s ← get_state;
  lift (py_truediv (global_loss s) (steps s)).

Definition _train_accelerate (self : Trainer) (fs : filesystem) (epochs : Z)
  (max_steps : option Z) : M value :=
  startup self fs;;
  training_loop self epochs max_steps.

Definition train (self : Trainer) (fs : filesystem) (epochs : Z)
  (max_steps : option Z) : M value :=
  emit (ELogInfo "***** Running training *****" []);;
  emit (ELogInfo "  Num examples = {:,}"
          [LInt (Z.of_nat (length (batches (dataset self))))]);;
  emit (ELogInfo "  Num Epochs = {:,}" [LInt epochs]);;
  (if truthy max_steps then
     match max_steps with
     | Some m => emit (ELogInfo "  Total optimization steps = {:,}" [LInt m])
     | None => ret tt
     end
   else ret tt);;
  emit (ELogInfo "  Instantaneous batch size per device = {:,}"
          [LInt (batch_size (dataset self))]);;
  emit (ELogInfo "  Gradient Accumulation steps = {}"
          [LInt (grad_accum self)]);;
  o ← get_objs;
  emit (ELogInfo "  Number of trainable parameters = {:,}"
          [LInt (get_model_param_count o)]);;
  _train_accelerate self fs epochs max_steps.

(** ** Reading a trace *)

(** The batches a trace went through, by the line each one prints. *)
Fixpoint processed (tr : list event) : list (Z * nat) :=
  match tr with
  | [] => []
  | EPrint ep i _ :: r => (ep, i) :: processed r
  | _ :: r => processed r
  end.

(** The batch indices at which a trace runs the standalone export of a
    full checkpoint: each export is attributed to the batch printed last
    before it, [cur] being the one printed before the trace starts. *)
Fixpoint full_checkpoints (cur : option nat) (tr : list event) : list nat :=
  match tr with
  | [] => []
  | EPrint _ i _ :: r => full_checkpoints (Some i) r
  | ESavePretrained _ :: r =>
      match cur with
      | Some i => i :: full_checkpoints cur r
      | None => full_checkpoints cur r
      end
  | _ :: r => full_checkpoints cur r
  end.

(** The saves of a trace: accelerator checkpoints and standalone exports. *)
Definition is_save (e : event) : bool :=
  match e with
  | ESaveState | ESavePretrained _ => true
  | _ => false
  end.

Definition saves (tr : list event) : list event := filter is_save tr.

(** What the startup emits when the checkpoints directory is missing. *)
Definition missing_dir_events (self : Trainer) : list event :=
  [EModelTrain; EListdir (checkpoints_dir self);
   ELogWarningExn FileNotFoundError;
   ELogWarning "No checkpoint found, starting from scratch.";
   EWaitForEveryone; ESaveState].

(** What [train] logs before it calls [_train_accelerate]. *)
Definition train_banner (self : Trainer) (epochs : Z) (max_steps : option Z)
  (o : Objs) : list event :=
  [ELogInfo "***** Running training *****" [];
   ELogInfo "  Num examples = {:,}"
     [LInt (Z.of_nat (length (batches (dataset self))))];
   ELogInfo "  Num Epochs = {:,}" [LInt epochs]]
  ++ match max_steps with
     | Some m =>
         if m =? 0 then []
         else [ELogInfo "  Total optimization steps = {:,}" [LInt m]]
     | None => []
     end
  ++ [ELogInfo "  Instantaneous batch size per device = {:,}"
        [LInt (batch_size (dataset self))];
      ELogInfo "  Gradient Accumulation steps = {}" [LInt (grad_accum self)];
      ELogInfo "  Number of trainable parameters = {:,}"
        [LInt (get_model_param_count o)]].

(** The calls of one training step before its loss is printed. *)
Definition step_calls (self : Trainer) : list event :=
  [EAccumulate; EForward; EBackward; EOptimizerStep]
  ++ (if use_scheduler self then [ESchedulerStep] else [])
  ++ [EZeroGrad].

(** The prepared objects after one training step on [batch]. *)
Definition step_objs (self : Trainer) (o : Objs) (batch : Batch) : Objs :=
  let o1 := optimizer_step (accelerator_backward o batch) in
  optimizer_zero_grad (if use_scheduler self then scheduler_step o1 else o1).

(** What a full checkpoint [_save()] emits. *)
Definition full_save_events (self : Trainer) : list event :=
  [EWaitForEveryone; ESaveState; EUnwrapModel;
   ESavePretrained (output_dir self +:+ "/dist")].

(** The batches an epoch iterates when it starts in state [s]. *)
Definition epoch_batches (self : Trainer) (s : TrainerState) : list Batch :=
  if py_gt0 (steps s)
  then skip_first_batches (batches (dataset self)) (steps s)
  else batches (dataset self).

(** The batch printed last in a trace, [cur] if it prints none. *)
Fixpoint last_printed (cur : option nat) (tr : list event) : option nat :=
  match tr with
  | [] => cur
  | EPrint _ i _ :: r => last_printed (Some i) r
  | _ :: r => last_printed cur r
  end.

(** The step counter [v] after [n] more steps. *)
Definition steps_after (n : nat) (v : value) : value :=
  Nat.iter n (λ v, py_add v (VInt 1)) v.

(** The batch index [j] falls on the checkpoint cadence. *)
Definition on_cadence (self : Trainer) (j : nat) : Prop :=
  Z.of_nat j mod checkpoint_every self = 0.

#[global] Instance on_cadence_dec (self : Trainer) (j : nat) :
  Decision (on_cadence self j) :=
  decide (Z.of_nat j mod checkpoint_every self = 0).

(** The world a run starts in after construction. *)
Definition fresh_world (o : Objs) : world :=
  {| state := TrainerState_init; objs := o |}.

Definition skips (tr : list event) : list value :=
  omap (λ e, match e with ESkipFirstBatches n => Some n | _ => None end) tr.

Definition seedings (tr : list event) : list Z :=
  omap (λ e, match e with ESetSeed s => Some s | _ => None end) tr.

(** A save that is the standalone export to the dist subdirectory and
    nothing else. *)
Definition dist_only_export (self : Trainer) (tr : list event) : Prop :=
  saves tr = [ESavePretrained (output_dir self +:+ "/dist")].


(** The losses a trace prints, in order. *)
Fixpoint printed_losses (tr : list event) : list value :=
  match tr with
  | [] => []
  | EPrint _ _ bl :: r => bl :: printed_losses r
  | _ :: r => printed_losses r
  end.

(** The calls of a trace into the model, the optimizer and the scheduler
    within the accumulation block. *)
Definition is_step_call (e : event) : bool :=
  match e with
  | EAccumulate | EForward | EBackward | EOptimizerStep | ESchedulerStep
  | EZeroGrad => true
  | _ => false
  end.

Definition step_calls_of (tr : list event) : list event :=
  filter is_step_call tr.

(** The objects a trace registers for checkpointing, in order. *)
Definition registrations (tr : list event) : list string :=
  omap (λ e, match e with
             | ERegisterForCheckpointing what => Some what
             | _ => None
             end) tr.

(** The keyword arguments [__post_init__] sets before the caller's
    overrides are merged in. *)
Definition default_acc_kwargs (self : Trainer) : gmap string kwarg :=
  {[ "gradient_accumulation_steps" := KInt (grad_accum self);
     "project_dir" := KStr (output_dir self);
     "project_config" := KProjectConfiguration (output_dir self) true ]}.

(** ["_".join(fields)] *)
Fixpoint join_underscore (fields : list string) : string :=
  match fields with
  | [] => ""
  | [f] => f
  | f :: r => f +:+ "_" +:+ join_underscore r
  end.

(** ["_" not in s] *)
Fixpoint no_underscore (s : string) : bool :=
  match s with
  | EmptyString => true
  | String c r => negb (Ascii.eqb c "_"%char) && no_underscore r
  end.

(** The same trainer with another checkpoint cadence. *)
Definition with_checkpoint_every (self : Trainer) (n : Z) : Trainer := {|
  scheduler := scheduler self;
  use_scheduler := use_scheduler self;
  grad_accum := grad_accum self;
  accelerator_kwargs := accelerator_kwargs self;
  fp16 := fp16 self;
  output_dir := output_dir self;
  checkpoint_every := n;
  load_checkpoint := load_checkpoint self;
  seed := seed self;
  dataset := dataset self
|}.

(** What the startup emits when the latest checkpoint [last_cp], numbered
    [n], is restored. *)
Definition resume_events (self : Trainer) (last_cp : string) (n : Z)
  : list event :=
  [EModelTrain; EListdir (checkpoints_dir self);
   ELogInfo "Trying to load checkpoint: {}...." [LStr last_cp];
   ELoadState (checkpoints_dir self +:+ last_cp);
   ESetIteration (n + 1);
   ELogInfo "Checkpoint loaded." []].

(** What the startup emits when restoring [last_cp] raises
    [FileNotFoundError]. *)
Definition stale_checkpoint_events (self : Trainer) (last_cp : string)
  : list event :=
  [EModelTrain; EListdir (checkpoints_dir self);
   ELogInfo "Trying to load checkpoint: {}...." [LStr last_cp];
   ELoadState (checkpoints_dir self +:+ last_cp);
   ELogWarningExn FileNotFoundError;
   ELogWarning "No checkpoint found, starting from scratch.";
   EWaitForEveryone; ESaveState].

(** ** The checkpoints directory

    [__post_init__] builds the accelerator with automatic checkpoint
    naming (lines 78-81). [save_state] then writes to
    [checkpoints/checkpoint_<iteration>], [iteration] being a counter of
    the accelerator that starts at 0: the call raises [ValueError] when
    that entry exists already, and otherwise creates it and counts up. A
    resume sets the counter by hand (line 122). *)

(** [f"checkpoint_{iteration}"] *)
Definition checkpoint_name (iteration : Z) : string :=
  "checkpoint_" +:+ pretty iteration.

(** No [save_state] of the trace finds its entry in the directory, which
    holds [entries] when the trace starts with the counter at
    [iteration]. *)
Fixpoint save_state_succeeds (entries : list string) (iteration : Z)
  (tr : list event) : bool :=
  match tr with
  | [] => true
  | ESaveState :: r =>
      negb (bool_decide (checkpoint_name iteration ∈ entries))
      && save_state_succeeds (checkpoint_name iteration :: entries)
           (iteration + 1) r
  | ESetIteration n :: r => save_state_succeeds entries n r
  | _ :: r => save_state_succeeds entries iteration r
  end.

(** The entries of the checkpoints directory, none when it is missing. *)
Definition checkpoint_entries (self : Trainer) (fs : filesystem)
  : list string :=
  match os_listdir fs (checkpoints_dir self) with
  | Return names => names
  | Raise _ => []
  end.

(** Every [save_state] of a trace of the trainer as constructed returns. *)
Definition saves_succeed (self : Trainer) (fs : filesystem)
  (tr : list event) : bool :=
  save_state_succeeds (checkpoint_entries self fs) 0 tr.

(** The loss of some batch of the loader as line 150 computes it: the
    loss of the model on the batch, divided by [grad_accum]. *)
Definition is_batch_loss (self : Trainer) (v : value) : Prop :=
  ∃ (o : Objs) (batch : Batch),
    batch ∈ batches (dataset self) ∧
    v = VFloat (float_div (model_loss o batch)
                  (float_of_int (grad_accum self))).
End Trainer.

(** ** A concrete instance: binary64 floats and a synthetic loader *)

(** [float(z)]: the binary64 nearest to [z], ties to even. An int of at
    most 63 bits is converted by the machine. A longer one is cut to its
    63 leading bits, the last of them set when a bit cut off is set
    (rounding to odd, which leaves the nearest binary64 the same), and
    the result is doubled once per bit cut off. Python raises
    [OverflowError] where this is an infinity. *)
Fixpoint drop_bits (e : nat) (p : positive) (sticky : bool)
  : positive * bool :=
  match e, p with
  | O, _ => (p, sticky)
  | S e', xO q => drop_bits e' q sticky
  | S e', xI q => drop_bits e' q true
  | S _, xH => (xH, true)
  end.

Definition set_low_bit (p : positive) : positive :=
  match p with
  | xO q => xI q
  | _ => p
  end.

Definition float64_of_pos (p : positive) : float :=
  let e := (Pos.size_nat p - 63)%nat in
  let '(m, sticky) := drop_bits e p false in
  Nat.iter e (λ x, PrimFloat.mul x 2)
    (PrimFloat.of_uint63
       (Uint63.of_pos (if sticky then set_low_bit m else m))).

Definition float64_of_int (z : Z) : float :=
  match z with
  | Z0 => PrimFloat.zero
  | Zpos p => float64_of_pos p
  | Zneg p => PrimFloat.opp (float64_of_pos p)
  end.

#[local] Instance binary64 : FloatArith := {|
  pyfloat := float;
  float_of_int := float64_of_int;
  float_add := PrimFloat.add;
  float_div := PrimFloat.div;
  float_eqb := PrimFloat.eqb;
  float_ltb := PrimFloat.ltb;
  float_leb := PrimFloat.leb
|}.

(** [s.find(c)], [None] for -1. *)
Fixpoint position (c : ascii) (s : string) : option Z :=
  match s with
  | EmptyString => None
  | String d r => if Ascii.eqb c d then Some 0 else Z.succ <$> position c r
  end.

Definition digit_of (c : ascii) : option Z := position c "0123456789".

(** The rest of a decimal literal: digits, each after at most one
    underscore. *)
Fixpoint decimal (acc : Z) (s : string) : option Z :=
  match s with
  | EmptyString => Some acc
  | String c r =>
      match digit_of c with
      | Some d => decimal (10 * acc + d) r
      | None =>
          if Ascii.eqb c "_"%char then
            match r with
            | String c' r' =>
                match digit_of c' with
                | Some d => decimal (10 * acc + d) r'
                | None => None
                end
            | EmptyString => None
            end
          else None
      end
  end.

(** A decimal literal without sign: it starts with a digit. *)
Definition unsigned_decimal (s : string) : option Z :=
  match s with
  | EmptyString => None
  | String c r =>
      match digit_of c with
      | Some d => decimal d r
      | None => None
      end
  end.

(** The ASCII characters [str.strip] removes: tab to carriage return,
    the four separators and the space. *)
Definition whitespace : string :=
  String "009" (String "010" (String "011" (String "012" (String "013"
    (String "028" (String "029" (String "030" (String "031" " ")))))))).

Definition is_space (c : ascii) : bool :=
  match position c whitespace with
  | Some _ => true
  | None => false
  end.

Fixpoint lstrip (s : string) : string :=
  match s with
  | EmptyString => EmptyString
  | String c r => if is_space c then lstrip r else s
  end.

Fixpoint rstrip (s : string) : string :=
  match s with
  | EmptyString => EmptyString
  | String c r =>
      match rstrip r with
      | EmptyString => if is_space c then EmptyString else String c EmptyString
      | r' => String c r'
      end
  end.

(** [int(s)] on an ASCII string: surrounding whitespace, an optional
    sign, then a decimal literal; [None] where [int] raises. *)
Definition digits_to_int (s : string) : option Z :=
  match lstrip (rstrip s) with
  | EmptyString => None
  | String c r =>
      if Ascii.eqb c "-"%char then Z.opp <$> unsigned_decimal r
      else if Ascii.eqb c "+"%char then unsigned_decimal r
      else unsigned_decimal (String c r)
  end.

(** A synthetic model whose loss on a batch is the number the batch
    holds; the prepared objects only count the optimizer steps taken. *)
#[local] Instance synthetic : Collaborators := {|
  Batch := float;
  Objs := nat;
  model_loss := λ _ b, b;
  accelerator_backward := λ o _, o;
  optimizer_step := S;
  scheduler_step := λ o, o;
  optimizer_zero_grad := λ o, o;
  get_model_param_count := λ _, 1;
  int_of_str := digits_to_int
|}.

Definition loader3 : DataLoader :=
  {| batches := [3%float; 1.5%float; 0.75%float]; batch_size := 1 |}.

Definition trainer3 : Trainer := {|
  scheduler := None;
  use_scheduler := false;
  grad_accum := 1;
  accelerator_kwargs := ∅;
  fp16 := false;
  output_dir := "./output";
  checkpoint_every := 2;
  load_checkpoint := false;
  seed := None;
  dataset := loader3
|}.

Definition with_seed (self : Trainer) (s : option Z) : Trainer := {|
  scheduler := scheduler self;
  use_scheduler := use_scheduler self;
  grad_accum := grad_accum self;
  accelerator_kwargs := accelerator_kwargs self;
  fp16 := fp16 self;
  output_dir := output_dir self;
  checkpoint_every := checkpoint_every self;
  load_checkpoint := load_checkpoint self;
  seed := s;
  dataset := dataset self
|}.

Definition resuming (self : Trainer) : Trainer := {|
  scheduler := scheduler self;
  use_scheduler := use_scheduler self;
  grad_accum := grad_accum self;
  accelerator_kwargs := accelerator_kwargs self;
  fp16 := fp16 self;
  output_dir := output_dir self;
  checkpoint_every := checkpoint_every self;
  load_checkpoint := true;
  seed := seed self;
  dataset := dataset self
|}.

(** A file system with no checkpoints directory. *)
Definition no_checkpoints : filesystem := {|
  os_listdir := λ _, Raise FileNotFoundError;
  accelerator_load_state := λ _, LoadFails FileNotFoundError
|}.

(** The state a checkpoint of the synthetic run holds after its first
    epoch and two batches of the second. *)
Definition saved3 : TrainerState :=
  {| epoch := VInt 1; steps := VInt 2; global_loss := VFloat 4.5%float |}.

(** A file system with two checkpoints, the later of which restores
    [saved3]. *)
Definition two_checkpoints : filesystem := {|
  os_listdir := λ _, Return ["checkpoint_1"; "checkpoint_0"];
  accelerator_load_state := λ path,
    if String.eqb path "./output/checkpoints/checkpoint_1"
    then Loaded 5%nat (state_dict saved3)
    else LoadFails FileNotFoundError
|}.

(** A file system whose checkpoint directory lists an entry whose files
    are gone. *)
Definition stale_checkpoint : filesystem := {|
  os_listdir := λ _, Return ["checkpoint_0"];
  accelerator_load_state := λ _, LoadFails FileNotFoundError
|}.

(** A file system whose only checkpoint has no number in its name. *)
Definition unnumbered_checkpoint : filesystem := {|
  os_listdir := λ _, Return ["checkpoint_final"];
  accelerator_load_state := λ _, Loaded 5%nat (state_dict saved3)
|}.

(** A file system whose checkpoints directory is empty. *)
Definition empty_checkpoints : filesystem := {|
  os_listdir := λ _, Return [];
  accelerator_load_state := λ _, LoadFails FileNotFoundError
|}.

(** A file system after eleven checkpoints of which two are left; the
    ninth restores [saved3]. *)
Definition ten_checkpoints : filesystem := {|
  os_listdir := λ _, Return ["checkpoint_10"; "checkpoint_9"];
  accelerator_load_state := λ path,
    if String.eqb path "./output/checkpoints/checkpoint_9"
    then Loaded 5%nat (state_dict saved3)
    else LoadFails FileNotFoundError
|}.

(** A file system that lists an old checkpoint and no [checkpoint_0]; the
    files of the old one are gone. *)
Definition stale_checkpoint_7 : filesystem := {|
  os_listdir := λ _, Return ["checkpoint_7"];
  accelerator_load_state := λ _, LoadFails FileNotFoundError
|}.


(** * Properties *)

(** Closes [x ∉ [e1; ...; en]] when [x] differs from every [ei] by its
    constructor. *)
Ltac not_in_list :=
  let Hin := fresh "Hin" in
  intros Hin;
  repeat (apply elem_of_cons in Hin as [Hin|Hin]; [discriminate Hin|]);
  by apply elem_of_nil in Hin.

(** The same through appends, using the hypotheses at hand. *)
Ltac not_in_app :=
  repeat match goal with
         | |- _ ∉ _ ++ _ => apply not_elem_of_app; split
         | |- _ ∈ _ ++ _ → False => apply not_elem_of_app; split
         end;
  (assumption || not_in_list).

(** ** TrainerState *)

Section TrainerStateFacts.
Context `{FloatArith}.

Lemma state_dict_lookup_epoch (s : TrainerState) :
  state_dict s !! "epoch" = Some (epoch s).
Proof. unfold state_dict. by simplify_map_eq. Qed.

Lemma state_dict_lookup_steps (s : TrainerState) :
  state_dict s !! "steps" = Some (steps s).
Proof. unfold state_dict. by simplify_map_eq. Qed.

Lemma state_dict_lookup_global_loss (s : TrainerState) :
  state_dict s !! "global_loss" = Some (global_loss s).
Proof. unfold state_dict. by simplify_map_eq. Qed.

Lemma state_dict_dom (s : TrainerState) :
  dom (state_dict s) = ({[ "epoch"; "steps"; "global_loss" ]} : gset string).
Proof. unfold state_dict. rewrite !dom_insert_L, dom_singleton_L. set_solver. Qed.

Lemma load_state_dict_missing (self : TrainerState) (d : gmap string value) :
  d !! "epoch" = None ∨ d !! "steps" = None ∨ d !! "global_loss" = None →
  ∃ k, (load_state_dict self d).1 = Raise (KeyError k) ∧ d !! k = None.
Proof.
  intros Hmiss. unfold load_state_dict.
  destruct (d !! "epoch") as [e|] eqn:He; [|by exists "epoch"].
  destruct (d !! "steps") as [s|] eqn:Hs; [|by exists "steps"].
  destruct (d !! "global_loss") as [g|] eqn:Hg; [|by exists "global_loss"].
  by destruct Hmiss as [?|[?|?]].
Qed.

(** C7: loading the mapping that [state_dict] produced restores exactly the
    three fields [epoch], [steps] and [global_loss], whatever the receiving
    state held before; and [load_state_dict] on a mapping that lacks one of
    the three keys fails with a [KeyError] on a key the mapping lacks. *)
Theorem C7_state_dict_round_trip (s self : TrainerState)
  (d : gmap string value) :
  load_state_dict self (state_dict s) = (Return tt, s) ∧
  load_state_dict s (state_dict s) = (Return tt, s) ∧
  dom (state_dict s) = ({[ "epoch"; "steps"; "global_loss" ]} : gset string) ∧
  (d !! "epoch" = None ∨ d !! "steps" = None ∨ d !! "global_loss" = None →
   ∃ k, (load_state_dict self d).1 = Raise (KeyError k) ∧ d !! k = None).
Proof.
  assert (Hload : ∀ s0, load_state_dict s0 (state_dict s) = (Return tt, s)).
  { intros s0. unfold load_state_dict.
    rewrite state_dict_lookup_epoch, state_dict_lookup_steps,
      state_dict_lookup_global_loss.
    by destruct s. }
  split_and!; [apply Hload | apply Hload | apply state_dict_dom |].
  apply load_state_dict_missing.
Qed.
End TrainerStateFacts.

Lemma C7_state_dict_round_trip_witness :
  (({[ "epoch" := VInt 1 ]} : gmap string value) !! "steps" = None) ∧
  ∃ k, (load_state_dict TrainerState_init {[ "epoch" := VInt 1 ]}).1
       = Raise (KeyError k) ∧
       ({[ "epoch" := VInt 1 ]} : gmap string value) !! k = None.
Proof.
  split; [reflexivity|].
  apply (C7_state_dict_round_trip TrainerState_init TrainerState_init
           {[ "epoch" := VInt 1 ]}).
  right; left; reflexivity.
Defined.

(** ** Construction *)

Section ConstructionFacts.
Context `{Collaborators}.

(** The seeding call of [__post_init__] is made for a nonzero seed only. *)
Lemma post_init_seedings (self : Trainer) :
  seedings (post_init self).1.1 =
  match seed self with
  | Some s => if s =? 0 then [] else [s]
  | None => []
  end.
Proof.
  unfold post_init, truthy. cbn [fst].
  destruct (seed self) as [s|]; [destruct (s =? 0)|]; cbn;
    destruct (use_scheduler self), (scheduler self); reflexivity.
Qed.
End ConstructionFacts.

(** C8 fails on the code at seed 0: [if self.seed:] takes the seed's truth
    value, so a trainer built with [seed=0] makes no seeding call. *)
Theorem C8_seed_zero_not_seeded :
  seedings (post_init (with_seed trainer3 (Some 0))).1.1 = [] ∧
  seedings (post_init (with_seed trainer3 (Some 7))).1.1 = [7] ∧
  seedings (post_init (with_seed trainer3 None)).1.1 = [].
Proof. split_and!; reflexivity. Qed.

(** ** Startup *)

Section StartupFacts.
Context `{Collaborators}.

Lemma save_no_dist (self : Trainer) (w : world) :
  _save self true w = (Return tt, w, [EWaitForEveryone; ESaveState]).
Proof. reflexivity. Qed.

Lemma save_full (self : Trainer) (w : world) :
  _save self false w = (Return tt, w, full_save_events self).
Proof. reflexivity. Qed.

Lemma train_unfold (self : Trainer) (fs : filesystem) (epochs : Z)
  (max_steps : option Z) (w : world) :
  train self fs epochs max_steps w =
  (let '(r, w', tr) := _train_accelerate self fs epochs max_steps w in
   (r, w', train_banner self epochs max_steps (objs w) ++ tr)).
Proof.
  unfold train, train_banner, truthy, mbind, M_bind, bind, emit, get_objs,
    ret.
  destruct max_steps as [m|]; [destruct (m =? 0)|]; cbn;
    by destruct (_train_accelerate self fs epochs _ w) as [[[] ?] ?].
Qed.

Lemma startup_no_resume (self : Trainer) (fs : filesystem) (w : world) :
  load_checkpoint self = false →
  startup self fs w =
  (Return tt, w, [EModelTrain; EWaitForEveryone; ESaveState]).
Proof. intros Hl. unfold startup. rewrite Hl. reflexivity. Qed.

(** C1, as amended: with [load_checkpoint] disabled the startup save is
    [_save(no_dist=True)]: the barrier and the accelerator's full
    [save_state], without the standalone export to the dist
    subdirectory; it neither raises nor touches the trainer state. *)
Theorem C1_startup_save_is_accelerator_checkpoint (self : Trainer)
  (fs : filesystem) (w : world) :
  load_checkpoint self = false →
  startup self fs w =
    (Return tt, w, [EModelTrain; EWaitForEveryone; ESaveState]) ∧
  saves (startup self fs w).2 = [ESaveState] ∧
  ¬ dist_only_export self (startup self fs w).2.
Proof.
  intros Hl. rewrite (startup_no_resume self fs w Hl).
  split_and!; [reflexivity | reflexivity |].
  unfold dist_only_export. cbn. discriminate.
Qed.

Lemma startup_missing_dir (self : Trainer) (fs : filesystem) (w : world) :
  load_checkpoint self = true →
  os_listdir fs (checkpoints_dir self) = Raise FileNotFoundError →
  startup self fs w = (Return tt, w, missing_dir_events self).
Proof.
  intros Hl Hdir. unfold startup, load_last_checkpoint. rewrite Hl.
  unfold mbind, M_bind, bind, try_except_FileNotFoundError, emit, lift.
  rewrite Hdir. reflexivity.
Qed.

(** C9: resuming when the checkpoints directory exists and is empty raises
    [IndexError] out of [train]: the last element of the empty sorted
    listing is taken inside the [try], and the handler catches
    [FileNotFoundError] only. No save is made. *)
Theorem C9_empty_checkpoints_dir_raises_IndexError (self : Trainer)
  (fs : filesystem) (epochs : Z) (max_steps : option Z) (w : world) :
  load_checkpoint self = true →
  os_listdir fs (checkpoints_dir self) = Return [] →
  _train_accelerate self fs epochs max_steps w =
    (Raise IndexError, w, [EModelTrain; EListdir (checkpoints_dir self)]) ∧
  (train self fs epochs max_steps w).1.1 = Raise IndexError ∧
  (train self fs epochs max_steps w).1.2 = w ∧
  saves (train self fs epochs max_steps w).2 = [].
Proof.
  intros Hl Hdir.
  assert (Hrun : _train_accelerate self fs epochs max_steps w =
    (Raise IndexError, w, [EModelTrain; EListdir (checkpoints_dir self)])).
  { unfold _train_accelerate, startup, load_last_checkpoint. rewrite Hl.
    unfold mbind, M_bind, bind, try_except_FileNotFoundError, emit, lift.
    rewrite Hdir. reflexivity. }
  split; [exact Hrun|].
  rewrite train_unfold, Hrun. cbn.
  split_and!; try reflexivity.
  unfold saves, train_banner.
  by destruct max_steps as [m|]; [destruct (m =? 0)|].
Qed.
End StartupFacts.

(** ** The loop, one equation per construct *)

Section LoopEquations.
Context `{Collaborators}.

Lemma train_step_unfold (self : Trainer) (ep : Z) (i : nat) (b : Batch)
  (w : world) :
  train_step self ep i b w =
  match py_truediv (VFloat (model_loss (objs w) b))
          (VInt (grad_accum self)) with
  | Return bl =>
      (Return tt,
       {| state := add_loss bl (state w);
          objs := step_objs self (objs w) b |},
       step_calls self ++ [EPrint ep i bl])
  | Raise e =>
      (Raise e, {| state := state w; objs := step_objs self (objs w) b |},
       step_calls self)
  end.
Proof.
  unfold train_step, step_calls, step_objs, mbind, M_bind, bind, emit,
    get_objs, put_objs, modify_state, lift, ret.
  destruct (use_scheduler self); cbn;
    by destruct (py_truediv _ _).
Qed.

Lemma batch_loop_cons (self : Trainer) (max_steps : option Z) (ep : Z)
  (i : nat) (b : Batch) (rest : list Batch) (w : world) :
  batch_loop self max_steps ep i (b :: rest) w =
  match train_step self ep i b w with
  | (Return _, w1, t1) =>
      let w2 := {| state := incr_steps (state w1); objs := objs w1 |} in
      if reached_max_steps max_steps i then (Return tt, w2, t1)
      else
        match py_mod (Z.of_nat i) (checkpoint_every self) with
        | Return r =>
            let '(o, w3, t3) :=
              batch_loop self max_steps ep (S i) rest w2 in
            (o, w3,
             t1 ++ (if r =? 0 then full_save_events self else []) ++ t3)
        | Raise e => (Raise e, w2, t1)
        end
  | (Raise e, w1, t1) => (Raise e, w1, t1)
  end.
Proof.
  cbn [batch_loop]. unfold mbind, M_bind, bind at 1.
  destruct (train_step self ep i b w) as [[[[]|e] w1] t1]; [|done].
  unfold bind at 1, modify_state. cbn [app].
  destruct (reached_max_steps max_steps i).
  { cbn. by rewrite app_nil_r. }
  unfold bind at 1, lift.
  destruct (py_mod (Z.of_nat i) (checkpoint_every self)) as [r|e];
    [|cbn; by rewrite app_nil_r].
  unfold bind at 1.
  destruct (r =? 0); rewrite ?save_full; cbn -[batch_loop];
    by destruct (batch_loop self max_steps ep (S i) rest _) as [[o w3] t3].
Qed.

Lemma epoch_iteration_unfold (self : Trainer) (max_steps : option Z)
  (ep : Z) (w : world) :
  epoch_iteration self max_steps ep w =
  let t0 := if py_gt0 (steps (state w))
            then [ESkipFirstBatches (steps (state w))] else [] in
  match batch_loop self max_steps ep 0 (epoch_batches self (state w)) w with
  | (Return _, w1, t1) =>
      (Return tt, {| state := incr_epoch (state w1); objs := objs w1 |},
       t0 ++ t1)
  | (Raise e, w1, t1) => (Raise e, w1, t0 ++ t1)
  end.
Proof.
  unfold epoch_iteration, epoch_batches, mbind, M_bind, bind, get_state,
    modify_state, emit, ret.
  destruct (py_gt0 (steps (state w))); cbn -[batch_loop];
    destruct (batch_loop _ _ _ _ _ _) as [[[[]|e] w1] t1]; cbn;
    by rewrite ?app_nil_r.
Qed.

Lemma epoch_loop_cons (self : Trainer) (max_steps : option Z) (ep : Z)
  (rest : list Z) (w : world) :
  epoch_loop self max_steps (ep :: rest) w =
  match epoch_iteration self max_steps ep w with
  | (Return _, w1, t1) =>
      let '(o, w2, t2) := epoch_loop self max_steps rest w1 in
      (o, w2, t1 ++ t2)
  | (Raise e, w1, t1) => (Raise e, w1, t1)
  end.
Proof. reflexivity. Qed.

Lemma training_loop_unfold (self : Trainer) (epochs : Z)
  (max_steps : option Z) (w : world) :
  training_loop self epochs max_steps w =
  match py_range (epoch (state w)) epochs with
  | Return eps =>
      match epoch_loop self max_steps eps w with
      | (Return _, w1, t1) =>
          (py_truediv (global_loss (state w1)) (steps (state w1)), w1,
           [EAtexitRegister] ++ t1 ++ [EAtexitUnregister]
             ++ full_save_events self)
      | (Raise e, w1, t1) => (Raise e, w1, [EAtexitRegister] ++ t1)
      end
  | Raise e => (Raise e, w, [EAtexitRegister])
  end.
Proof.
  unfold training_loop, mbind, M_bind, bind, get_state, emit, lift.
  cbn -[epoch_loop py_range].
  destruct (py_range (epoch (state w)) epochs) as [eps|e]; [|done].
  destruct (epoch_loop self max_steps eps w) as [[[[]|e] w1] t1];
    cbn; by rewrite ?app_nil_r.
Qed.
End LoopEquations.

(** ** Reading traces *)

Section TraceFacts.
Context `{Collaborators}.

Lemma processed_app (t1 t2 : list event) :
  processed (t1 ++ t2) = processed t1 ++ processed t2.
Proof.
  induction t1 as [|e t1 IH]; [done|].
  destruct e; cbn; by rewrite ?IH.
Qed.

Lemma last_printed_app (cur : option nat) (t1 t2 : list event) :
  last_printed cur (t1 ++ t2) = last_printed (last_printed cur t1) t2.
Proof.
  revert cur. induction t1 as [|e t1 IH]; intros cur; [done|].
  destruct e; cbn; by rewrite ?IH.
Qed.

Lemma full_checkpoints_app (cur : option nat) (t1 t2 : list event) :
  full_checkpoints cur (t1 ++ t2) =
  full_checkpoints cur t1 ++ full_checkpoints (last_printed cur t1) t2.
Proof.
  revert cur. induction t1 as [|e t1 IH]; intros cur; [done|].
  destruct e; cbn; rewrite ?IH; try done.
  by destruct cur.
Qed.

Lemma processed_step_calls (self : Trainer) : processed (step_calls self) = [].
Proof. unfold step_calls. by destruct (use_scheduler self). Qed.

Lemma full_checkpoints_step_calls (self : Trainer) (cur : option nat) :
  full_checkpoints cur (step_calls self) = [].
Proof. unfold step_calls. by destruct (use_scheduler self). Qed.

Lemma last_printed_step_calls (self : Trainer) (cur : option nat) :
  last_printed cur (step_calls self) = cur.
Proof. unfold step_calls. by destruct (use_scheduler self). Qed.

Lemma unregister_not_in_step_calls (self : Trainer) :
  EAtexitUnregister ∉ step_calls self.
Proof. unfold step_calls. destruct (use_scheduler self); cbn; not_in_list. Qed.

Lemma unregister_not_in_full_save (self : Trainer) :
  EAtexitUnregister ∉ full_save_events self.
Proof. unfold full_save_events. not_in_list. Qed.

Lemma processed_step (self : Trainer) (ep : Z) (i : nat) (bl : value) :
  processed (step_calls self ++ [EPrint ep i bl]) = [(ep, i)].
Proof. by rewrite processed_app, processed_step_calls. Qed.

Lemma full_checkpoints_step (self : Trainer) (cur : option nat) (ep : Z)
  (i : nat) (bl : value) (tr : list event) :
  full_checkpoints cur ((step_calls self ++ [EPrint ep i bl]) ++ tr) =
  full_checkpoints (Some i) tr.
Proof.
  by rewrite !full_checkpoints_app, full_checkpoints_step_calls,
    last_printed_app, last_printed_step_calls.
Qed.
End TraceFacts.

(** ** The step counter follows the trace *)

Section Counting.
Context `{Collaborators}.

Lemma py_truediv_int (a : value) (n : Z) :
  py_truediv a (VInt n) =
  if n =? 0 then Raise ZeroDivisionError
  else Return (VFloat (float_div (to_float a) (float_of_int n))).
Proof. reflexivity. Qed.

Lemma steps_after_S (n : nat) (v : value) :
  steps_after n (py_add v (VInt 1)) = steps_after (S n) v.
Proof.
  unfold steps_after.
  by rewrite (Nat.iter_succ_r n _ (λ v, py_add v (VInt 1)) v).
Qed.

Lemma steps_after_int (n : nat) (s : Z) :
  steps_after n (VInt s) = VInt (s + Z.of_nat n).
Proof.
  unfold steps_after. induction n as [|n IH].
  - cbn. by rewrite Z.add_0_r.
  - rewrite Nat.iter_succ, IH. cbn. f_equal. lia.
Qed.

(** Whatever its outcome, the batch loop leaves the epoch counter alone,
    advances the step counter once per batch it printed, and never
    removes the exit hook. *)
Lemma batch_loop_counts (self : Trainer) (max_steps : option Z) (ep : Z)
  (ds : list Batch) (i : nat) (w : world) :
  let res := batch_loop self max_steps ep i ds w in
  steps (state res.1.2) =
    steps_after (length (processed res.2)) (steps (state w)) ∧
  epoch (state res.1.2) = epoch (state w) ∧
  (EAtexitUnregister ∉ res.2).
Proof.
  revert i w. induction ds as [|b rest IH]; intros i w.
  { split_and!; [done | done | not_in_list]. }
  cbn zeta. rewrite batch_loop_cons, train_step_unfold, py_truediv_int.
  pose proof (unregister_not_in_step_calls self) as Hcalls.
  pose proof (unregister_not_in_full_save self) as Hsave.
  destruct (grad_accum self =? 0).
  { cbn [fst snd state]. by rewrite processed_step_calls. }
  cbn zeta.
  set (bl := VFloat _). set (w2 := {| state := incr_steps _ |}).
  assert (Hs2 : steps (state w2) = py_add (steps (state w)) (VInt 1))
    by done.
  assert (He2 : epoch (state w2) = epoch (state w)) by done.
  destruct (reached_max_steps max_steps i).
  { cbn [fst snd]. rewrite processed_step.
    split_and!; [done | done | not_in_app]. }
  unfold py_mod. destruct (checkpoint_every self =? 0).
  { cbn [fst snd]. rewrite processed_step.
    split_and!; [done | done | not_in_app]. }
  specialize (IH (S i) w2). cbn zeta in IH.
  destruct (batch_loop self max_steps ep (S i) rest w2) as [[o w3] t3].
  cbn [fst snd] in *. destruct IH as (Hsteps & Hepoch & Hnot).
  rewrite !processed_app, processed_step_calls.
  split_and!.
  - rewrite Hsteps, Hs2, steps_after_S. f_equal.
    destruct (_ =? 0); reflexivity.
  - by rewrite Hepoch.
  - destruct (_ =? 0); not_in_app.
Qed.

Lemma epoch_iteration_counts (self : Trainer) (max_steps : option Z)
  (ep : Z) (w : world) :
  let res := epoch_iteration self max_steps ep w in
  steps (state res.1.2) =
    steps_after (length (processed res.2)) (steps (state w)) ∧
  (EAtexitUnregister ∉ res.2).
Proof.
  cbn zeta. rewrite epoch_iteration_unfold. cbn zeta.
  pose proof (batch_loop_counts self max_steps ep
                (epoch_batches self (state w)) 0 w) as Hloop.
  cbn zeta in Hloop.
  destruct (batch_loop self max_steps ep 0 _ w) as [[[[]|e] w1] t1];
    cbn [fst snd state incr_epoch steps] in *;
    destruct Hloop as (Hsteps & _ & Hnot);
    rewrite processed_app;
    (split; [|destruct (py_gt0 _); not_in_app]);
    by destruct (py_gt0 _).
Qed.

Lemma steps_after_add (n m : nat) (v : value) :
  steps_after m (steps_after n v) = steps_after (n + m) v.
Proof.
  unfold steps_after. rewrite Nat.add_comm.
  by rewrite (Nat.iter_add m n _ (λ v, py_add v (VInt 1)) v).
Qed.

Lemma epoch_loop_counts (self : Trainer) (max_steps : option Z)
  (eps : list Z) (w : world) :
  let res := epoch_loop self max_steps eps w in
  steps (state res.1.2) =
    steps_after (length (processed res.2)) (steps (state w)) ∧
  (EAtexitUnregister ∉ res.2).
Proof.
  revert w. induction eps as [|ep rest IH]; intros w.
  { split; [done | not_in_list]. }
  cbn zeta. rewrite epoch_loop_cons.
  pose proof (epoch_iteration_counts self max_steps ep w) as Hit.
  cbn zeta in Hit.
  destruct (epoch_iteration self max_steps ep w) as [[[[]|e] w1] t1];
    cbn [fst snd] in Hit; destruct Hit as (Hs1 & Hnot1); [|done].
  specialize (IH w1). cbn zeta in IH.
  destruct (epoch_loop self max_steps rest w1) as [[o w2] t2].
  cbn [fst snd] in *. destruct IH as (Hs2 & Hnot2).
  rewrite processed_app, length_app. split; [|not_in_app].
  by rewrite Hs2, Hs1, steps_after_add.
Qed.

Lemma train_accelerate_unfold (self : Trainer) (fs : filesystem)
  (epochs : Z) (max_steps : option Z) (w : world) :
  _train_accelerate self fs epochs max_steps w =
  match startup self fs w with
  | (Return _, w1, t0) =>
      let '(r, w', tr) := training_loop self epochs max_steps w1 in
      (r, w', t0 ++ tr)
  | (Raise e, w1, t0) => (Raise e, w1, t0)
  end.
Proof. reflexivity. Qed.

(** [train], case by case. *)
Lemma train_cases (self : Trainer) (fs : filesystem) (epochs : Z)
  (max_steps : option Z) (w : world) :
  train self fs epochs max_steps w =
  match startup self fs w with
  | (Return _, w1, t0) =>
      match py_range (epoch (state w1)) epochs with
      | Return eps =>
          match epoch_loop self max_steps eps w1 with
          | (Return _, w2, t1) =>
              (py_truediv (global_loss (state w2)) (steps (state w2)), w2,
               train_banner self epochs max_steps (objs w) ++ t0 ++ [EAtexitRegister] ++ t1
                 ++ [EAtexitUnregister] ++ full_save_events self)
          | (Raise e, w2, t1) =>
              (Raise e, w2,
               train_banner self epochs max_steps (objs w) ++ t0 ++ [EAtexitRegister] ++ t1)
          end
      | Raise e =>
          (Raise e, w1, train_banner self epochs max_steps (objs w) ++ t0 ++ [EAtexitRegister])
      end
  | (Raise e, w1, t0) => (Raise e, w1, train_banner self epochs max_steps (objs w) ++ t0)
  end.
Proof.
  rewrite train_unfold, train_accelerate_unfold.
  destruct (startup self fs w) as [[[[]|e] w1] t0]; [|done].
  rewrite training_loop_unfold.
  destruct (py_range (epoch (state w1)) epochs) as [eps|e]; [|done].
  by destruct (epoch_loop self max_steps eps w1) as [[[[]|e] w2] t1].
Qed.

(** The startup prints no batch and does not touch the exit hook. *)
Lemma startup_quiet (self : Trainer) (fs : filesystem) (w : world) :
  (EAtexitUnregister ∉ (startup self fs w).2) ∧
  processed (startup self fs w).2 = [].
Proof.
  unfold startup, load_last_checkpoint, load_state, _save, _save_dist,
    try_except_FileNotFoundError, mbind, M_bind, bind, emit, lift, ret,
    last_item, py_int.
  repeat case_match; simplify_eq; cbn; (split; [not_in_list | reflexivity]).
Qed.

Lemma banner_quiet (self : Trainer) (epochs : Z) (max_steps : option Z)
  (o : Objs) :
  (EAtexitUnregister ∉ train_banner self epochs max_steps o) ∧
  processed (train_banner self epochs max_steps o) = [].
Proof.
  unfold train_banner.
  destruct max_steps as [m|]; [destruct (m =? 0)|]; cbn;
    (split; [not_in_list | reflexivity]).
Qed.

End Counting.

(** ** What a run can raise *)

Section Outcomes.
Context `{Collaborators}.

(** The loops raise nothing but the [ZeroDivisionError] of a zero
    [grad_accum] or a zero [checkpoint_every]. *)
Lemma batch_loop_outcome (self : Trainer) (max_steps : option Z) (ep : Z)
  (ds : list Batch) (i : nat) (w : world) :
  (batch_loop self max_steps ep i ds w).1.1 = Return tt ∨
  (batch_loop self max_steps ep i ds w).1.1 = Raise ZeroDivisionError.
Proof.
  revert i w. induction ds as [|b rest IH]; intros i w; [by left|].
  rewrite batch_loop_cons, train_step_unfold, py_truediv_int.
  destruct (grad_accum self =? 0); [by right|]. cbn zeta.
  destruct (reached_max_steps max_steps i); [by left|].
  unfold py_mod. destruct (checkpoint_every self =? 0); [by right|].
  set (w2 := {| state := incr_steps _ |}). specialize (IH (S i) w2).
  by destruct (batch_loop self max_steps ep (S i) rest w2) as [[o w3] t3].
Qed.

Lemma epoch_iteration_outcome (self : Trainer) (max_steps : option Z)
  (ep : Z) (w : world) :
  (epoch_iteration self max_steps ep w).1.1 = Return tt ∨
  (epoch_iteration self max_steps ep w).1.1 = Raise ZeroDivisionError.
Proof.
  rewrite epoch_iteration_unfold. cbn zeta.
  pose proof (batch_loop_outcome self max_steps ep
                (epoch_batches self (state w)) 0 w) as Hloop.
  destruct (batch_loop self max_steps ep 0 _ w) as [[[[]|e] w1] t1];
    [by left | done].
Qed.

Lemma epoch_loop_outcome (self : Trainer) (max_steps : option Z)
  (eps : list Z) (w : world) :
  (epoch_loop self max_steps eps w).1.1 = Return tt ∨
  (epoch_loop self max_steps eps w).1.1 = Raise ZeroDivisionError.
Proof.
  revert w. induction eps as [|ep rest IH]; intros w; [by left|].
  rewrite epoch_loop_cons.
  pose proof (epoch_iteration_outcome self max_steps ep w) as Hit.
  destruct (epoch_iteration self max_steps ep w) as [[[[]|e] w1] t1];
    [|done].
  specialize (IH w1).
  by destruct (epoch_loop self max_steps rest w1) as [[o w2] t2].
Qed.

Lemma training_loop_outcome (self : Trainer) (epochs : Z)
  (max_steps : option Z) (w : world) (e0 : Z) (e : exn) :
  epoch (state w) = VInt e0 →
  (training_loop self epochs max_steps w).1.1 = Raise e →
  e = ZeroDivisionError.
Proof.
  intros He. rewrite training_loop_unfold, He. cbn [py_range].
  pose proof (epoch_loop_outcome self max_steps
    (map (λ i, e0 + Z.of_nat i) (seq 0 (Z.to_nat (epochs - e0)))) w) as Hl.
  destruct (epoch_loop self max_steps _ w) as [[[[]|e'] w1] t1];
    cbn [fst snd] in *.
  - unfold py_truediv. destruct (py_is_zero _); congruence.
  - destruct Hl as [Hl|Hl]; congruence.
Qed.

(** With a nonzero [grad_accum] and a nonzero [checkpoint_every] the
    loops return. *)
Lemma batch_loop_returns (self : Trainer) (max_steps : option Z) (ep : Z)
  (ds : list Batch) (i : nat) (w : world) :
  grad_accum self ≠ 0 →
  checkpoint_every self ≠ 0 →
  (batch_loop self max_steps ep i ds w).1.1 = Return tt.
Proof.
  intros Hg HN. revert i w. induction ds as [|b rest IH]; intros i w; [done|].
  rewrite batch_loop_cons, train_step_unfold, py_truediv_int.
  apply Z.eqb_neq in Hg as ->. cbn zeta.
  destruct (reached_max_steps max_steps i); [done|].
  unfold py_mod. apply Z.eqb_neq in HN as ->.
  set (w2 := {| state := incr_steps _ |}). specialize (IH (S i) w2).
  by destruct (batch_loop self max_steps ep (S i) rest w2) as [[o w3] t3].
Qed.

Lemma epoch_loop_returns (self : Trainer) (max_steps : option Z)
  (eps : list Z) (w : world) :
  grad_accum self ≠ 0 →
  checkpoint_every self ≠ 0 →
  (epoch_loop self max_steps eps w).1.1 = Return tt.
Proof.
  intros Hg HN. revert w. induction eps as [|ep rest IH]; intros w; [done|].
  rewrite epoch_loop_cons, epoch_iteration_unfold. cbn zeta.
  pose proof (batch_loop_returns self max_steps ep
                (epoch_batches self (state w)) 0 w Hg HN) as Hloop.
  destruct (batch_loop self max_steps ep 0 _ w) as [[r w1] t1].
  cbn [fst] in Hloop. subst r.
  set (w2 := {| state := incr_epoch _ |}). specialize (IH w2).
  by destruct (epoch_loop self max_steps rest w2) as [[o w3] t3].
Qed.

(** So a run that does not resume, from a state whose epoch counter is
    an int, reaches the removal of the exit hook. *)
Lemma train_loop_completes (self : Trainer) (fs : filesystem) (epochs : Z)
  (max_steps : option Z) (w : world) (e0 : Z) :
  load_checkpoint self = false →
  epoch (state w) = VInt e0 →
  grad_accum self ≠ 0 →
  checkpoint_every self ≠ 0 →
  EAtexitUnregister ∈ (train self fs epochs max_steps w).2.
Proof.
  intros Hl He Hg HN.
  rewrite train_cases, (startup_no_resume self fs w Hl), He. cbn [py_range].
  pose proof (epoch_loop_returns self max_steps
    (map (λ i, e0 + Z.of_nat i) (seq 0 (Z.to_nat (epochs - e0)))) w Hg HN)
    as Hloop.
  destruct (epoch_loop self max_steps _ w) as [[r w1] t1].
  cbn [fst] in Hloop. subst r. cbn [snd].
  rewrite !elem_of_app. do 4 right. left. apply elem_of_cons. by left.
Qed.

(** C3: resuming when the checkpoints directory does not exist does not
    raise out of the startup: the [FileNotFoundError] is logged as a
    warning, the fallback initial save runs, the trainer state is
    untouched, and the run is the training loop from the fresh state
    (epoch 0, step 0), which can raise nothing but the
    [ZeroDivisionError] of a zero divisor. *)
Theorem C3_missing_checkpoints_dir_falls_back (self : Trainer)
  (fs : filesystem) (epochs : Z) (max_steps : option Z) (o : Objs) :
  load_checkpoint self = true →
  os_listdir fs (checkpoints_dir self) = Raise FileNotFoundError →
  startup self fs (fresh_world o) =
    (Return tt, fresh_world o, missing_dir_events self) ∧
  epoch (state (fresh_world o)) = VInt 0 ∧
  steps (state (fresh_world o)) = VInt 0 ∧
  _train_accelerate self fs epochs max_steps (fresh_world o) =
    (let '(r, w', tr) := training_loop self epochs max_steps (fresh_world o) in
     (r, w', missing_dir_events self ++ tr)) ∧
  ∀ e, (_train_accelerate self fs epochs max_steps (fresh_world o)).1.1
       = Raise e → e = ZeroDivisionError.
Proof.
  intros Hl Hdir.
  assert (Hrun : _train_accelerate self fs epochs max_steps (fresh_world o) =
    (let '(r, w', tr) := training_loop self epochs max_steps (fresh_world o) in
     (r, w', missing_dir_events self ++ tr))).
  { rewrite train_accelerate_unfold.
    by rewrite (startup_missing_dir self fs _ Hl Hdir). }
  split_and!; [by apply startup_missing_dir | done | done | done |].
  intros e. rewrite Hrun.
  pose proof (training_loop_outcome self epochs max_steps (fresh_world o)
                0 e eq_refl) as Hout.
  by destruct (training_loop self epochs max_steps (fresh_world o))
    as [[r w'] tr].
Qed.
End Outcomes.

(** ** The checkpoint cadence and the [max_steps] bound *)

Section Cadence.
Context `{Collaborators}.





Lemma full_checkpoints_iteration (self : Trainer) (cur : option nat) (ep : Z)
  (i : nat) (bl : value) (t3 : list event) :
  full_checkpoints cur
    ((step_calls self ++ [EPrint ep i bl])
       ++ (if Z.of_nat i mod checkpoint_every self =? 0
           then full_save_events self else [])
       ++ t3) =
  (if decide (on_cadence self i) then [i] else [])
    ++ full_checkpoints (Some i) t3.
Proof.
  rewrite full_checkpoints_step. unfold on_cadence.
  destruct (Z.eqb_spec (Z.of_nat i mod checkpoint_every self) 0);
    case_decide; done.
Qed.

Lemma processed_iteration (self : Trainer) (ep : Z) (i : nat) (bl : value)
  (r : Z) (t3 : list event) :
  processed
    ((step_calls self ++ [EPrint ep i bl])
       ++ (if r =? 0 then full_save_events self else []) ++ t3) =
  (ep, i) :: processed t3.
Proof.
  rewrite !processed_app, processed_step_calls. by destruct (r =? 0).
Qed.

(** A batch loop that the [max_steps] bound does not cut goes through
    every batch and checkpoints at the indices on the cadence. *)
Lemma batch_loop_no_break (self : Trainer) (max_steps : option Z) (ep : Z)
  (ds : list Batch) (i : nat) (w : world) (cur : option nat) :
  grad_accum self ≠ 0 →
  checkpoint_every self ≠ 0 →
  (∀ j, (i ≤ j < i + length ds)%nat → reached_max_steps max_steps j = false) →
  let res := batch_loop self max_steps ep i ds w in
  res.1.1 = Return tt ∧
  processed res.2 = map (λ j, (ep, j)) (seq i (length ds)) ∧
  full_checkpoints cur res.2 = filter (on_cadence self) (seq i (length ds)).
Proof.
  intros Hg HN. revert i w cur.
  induction ds as [|b rest IH]; intros i w cur Hmax; [done|].
  cbn zeta. rewrite batch_loop_cons, train_step_unfold, py_truediv_int.
  apply Z.eqb_neq in Hg as Hg'. apply Z.eqb_neq in HN as HN'.
  rewrite Hg'. cbn zeta. rewrite (Hmax i) by (cbn; lia).
  unfold py_mod. rewrite HN'.
  set (w2 := {| state := incr_steps _ |}).
  specialize (IH (S i) w2 (Some i)). cbn zeta in IH.
  destruct (batch_loop self max_steps ep (S i) rest w2) as [[o w3] t3].
  cbn [fst snd] in *.
  destruct IH as (Ho & Hp & Hc); [intros j Hj; apply Hmax; cbn; lia|].
  rewrite processed_iteration, full_checkpoints_iteration, Hp, Hc.
  cbn [length seq map]. rewrite filter_cons.
  split_and!; [done | done | by case_decide].
Qed.

(** A batch loop that reaches index [Z.to_nat K] under [max_steps = K]
    goes through the batches up to that index and stops there, without
    the cadence check of that last batch. *)
Lemma batch_loop_break (self : Trainer) (K : Z) (ep : Z) (ds : list Batch)
  (i : nat) (w : world) (cur : option nat) :
  grad_accum self ≠ 0 →
  checkpoint_every self ≠ 0 →
  (i ≤ Z.to_nat K < i + length ds)%nat →
  let res := batch_loop self (Some K) ep i ds w in
  res.1.1 = Return tt ∧
  processed res.2 = map (λ j, (ep, j)) (seq i (S (Z.to_nat K) - i)) ∧
  full_checkpoints cur res.2 =
    filter (on_cadence self) (seq i (Z.to_nat K - i)) ∧
  ∃ pre bl, res.2 = pre ++ [EPrint ep (Z.to_nat K) bl].
Proof.
  intros Hg HN. revert i w cur.
  induction ds as [|b rest IH]; intros i w cur Hi; [cbn in Hi; lia|].
  cbn zeta. rewrite batch_loop_cons, train_step_unfold, py_truediv_int.
  apply Z.eqb_neq in Hg as Hg'. apply Z.eqb_neq in HN as HN'.
  rewrite Hg'. cbn zeta. set (bl := VFloat _).
  unfold reached_max_steps.
  destruct (Z.leb_spec K (Z.of_nat i)) as [Hle|Hlt].
  - assert (Z.to_nat K = i) as -> by lia.
    cbn [fst snd]. replace (S i - i)%nat with 1%nat by lia.
    rewrite Nat.sub_diag, processed_step, full_checkpoints_app,
      full_checkpoints_step_calls.
    split_and!; [done | done | done |]. by exists (step_calls self), bl.
  - unfold py_mod. rewrite HN'.
    set (w2 := {| state := incr_steps _ |}).
    specialize (IH (S i) w2 (Some i)). cbn zeta in IH.
    destruct (batch_loop self (Some K) ep (S i) rest w2) as [[o w3] t3].
    cbn [fst snd] in *.
    destruct IH as (Ho & Hp & Hc & pre & bl' & Hlast); [cbn in Hi; lia|].
    rewrite processed_iteration, full_checkpoints_iteration, Hp, Hc.
    replace (S (Z.to_nat K) - i)%nat with (S (S (Z.to_nat K) - S i)) by lia.
    replace (Z.to_nat K - i)%nat with (S (Z.to_nat K - S i)) by lia.
    cbn [seq map]. rewrite filter_cons.
    split_and!; [done | done | by case_decide |].
    eexists _, bl'. rewrite Hlast. by rewrite !app_assoc.
Qed.


(** An epoch that iterates [B] batches under [max_steps = K] with
    [0 ≤ K < B - 1] goes through the batches of index [0..K] and no other:
    the last thing it does in the batch loop is the loss accounting of
    batch [K]. The iteration returns normally with the epoch counter
    advanced by one and the step counter advanced by [K + 1], and the
    epoch loop goes on with the remaining epochs from there. *)
Lemma max_steps_stops_after_batch_K (self : Trainer) (ep : Z)
  (w : world) (K s : Z) :
  grad_accum self ≠ 0 →
  checkpoint_every self ≠ 0 →
  steps (state w) = VInt s →
  0 ≤ K →
  K < Z.of_nat (length (epoch_batches self (state w))) - 1 →
  let res := epoch_iteration self (Some K) ep w in
  res.1.1 = Return tt ∧
  processed res.2 = map (λ j, (ep, j)) (seq 0 (S (Z.to_nat K))) ∧
  (∃ pre bl, res.2 = pre ++ [EPrint ep (Z.to_nat K) bl]) ∧
  epoch (state res.1.2) = py_add (epoch (state w)) (VInt 1) ∧
  steps (state res.1.2) = VInt (s + K + 1) ∧
  ∀ rest,
    epoch_loop self (Some K) (ep :: rest) w =
    (let '(o, w2, t2) := epoch_loop self (Some K) rest res.1.2 in
     (o, w2, res.2 ++ t2)).
Proof.
  intros Hg HN Hs HK HB. cbn zeta.
  assert (Hnext : ∀ rest r w1 t1,
    epoch_iteration self (Some K) ep w = (r, w1, t1) → r = Return tt →
    epoch_loop self (Some K) (ep :: rest) w =
    (let '(o, w2, t2) := epoch_loop self (Some K) rest w1 in
     (o, w2, t1 ++ t2))).
  { intros rest r w1 t1 Heq ->. by rewrite epoch_loop_cons, Heq. }
  revert Hnext. rewrite epoch_iteration_unfold. cbn zeta.
  set (t0 := if py_gt0 _ then _ else _). intros Hnext.
  assert (Ht0 : processed t0 = []) by (subst t0; by destruct (py_gt0 _)).
  pose proof (batch_loop_break self K ep (epoch_batches self (state w)) 0 w
                None Hg HN ltac:(lia)) as Hloop.
  pose proof (batch_loop_counts self (Some K) ep
                (epoch_batches self (state w)) 0 w) as Hcount.
  cbn zeta in Hloop, Hcount.
  destruct (batch_loop self (Some K) ep 0 _ w) as [[r w1] t1].
  cbn [fst snd] in *.
  destruct Hloop as (-> & Hproc & _ & pre & bl & ->).
  destruct Hcount as (Hsteps & Hepoch & _).
  rewrite Nat.sub_0_r in Hproc.
  cbn [fst snd state incr_epoch epoch steps].
  rewrite processed_app, Ht0, Hproc, Hepoch, Hsteps, Hproc, Hs,
    steps_after_int.
  split_and!; try done.
  - exists (t0 ++ pre), bl. by rewrite app_assoc.
  - rewrite length_map, length_seq. f_equal. lia.
  - intros rest. by apply (Hnext rest _ _ _ eq_refl).
Qed.

(** C10: under [max_steps = K] the batch loop stops at index
    [b = Z.to_nat K] (the first index that reaches the bound) before the
    cadence check: the full checkpoints of the loop are those of the
    indices on the cadence strictly below [b], so none is made for [b]
    although [b] is on the cadence and would get one without the bound;
    the step counter counts the batch [b] all the same. *)
Theorem C10_no_checkpoint_on_breaking_batch (self : Trainer) (ep : Z)
  (ds : list Batch) (w : world) (K s : Z) :
  grad_accum self ≠ 0 →
  checkpoint_every self ≠ 0 →
  steps (state w) = VInt s →
  (Z.to_nat K < length ds)%nat →
  on_cadence self (Z.to_nat K) →
  let b := Z.to_nat K in
  let res := batch_loop self (Some K) ep 0 ds w in
  res.1.1 = Return tt ∧
  processed res.2 = map (λ j, (ep, j)) (seq 0 (S b)) ∧
  full_checkpoints None res.2 = filter (on_cadence self) (seq 0 b) ∧
  (b ∉ full_checkpoints None res.2) ∧
  (b ∈ full_checkpoints None (batch_loop self None ep 0 ds w).2) ∧
  steps (state res.1.2) = VInt (s + Z.of_nat b + 1).
Proof.
  intros Hg HN Hs Hb Hcad b res. subst res.
  pose proof (batch_loop_break self K ep ds 0 w None Hg HN ltac:(lia))
    as Hloop.
  pose proof (batch_loop_counts self (Some K) ep ds 0 w) as Hcount.
  pose proof (batch_loop_no_break self None ep ds 0 w None Hg HN
                ltac:(done)) as Hfree.
  cbn zeta in Hloop, Hcount, Hfree. fold b in Hloop.
  destruct (batch_loop self (Some K) ep 0 ds w) as [[r w1] t1].
  destruct (batch_loop self None ep 0 ds w) as [[r' w1'] t1'].
  cbn [fst snd] in *.
  destruct Hloop as (-> & Hproc & Hcp & _).
  destruct Hcount as (Hsteps & _ & _).
  destruct Hfree as (_ & _ & Hcp').
  rewrite Nat.sub_0_r in Hproc, Hcp.
  rewrite Hcp, Hcp', Hsteps, Hproc, Hs, steps_after_int.
  split_and!; try done.
  - rewrite list_elem_of_filter, elem_of_seq. lia.
  - rewrite list_elem_of_filter, elem_of_seq. split; [done | lia].
  - rewrite length_map, length_seq. f_equal. lia.
Qed.
End Cadence.

(** ** The synthetic run *)

(** One epoch over the three synthetic batches: three steps, one epoch,
    and the mean of the three losses. *)
Example train_three_batches :
  (train trainer3 no_checkpoints 1 None (fresh_world 0%nat)).1 =
  (Return (VFloat 1.75%float),
   {| state := {| epoch := VInt 1; steps := VInt 3;
                  global_loss := VFloat 5.25%float |};
      objs := 3%nat |}).
Proof. reflexivity. Qed.

(** No epoch to run: no step is taken and the final division raises. *)
Example train_no_epoch_raises :
  (train trainer3 no_checkpoints 0 None (fresh_world 0%nat)).1 =
  (Raise ZeroDivisionError, fresh_world 0%nat).
Proof. reflexivity. Qed.

(** The conversion of ints to binary64 agrees with the rounding of
    [SpecFloat] below and above [2^63], on ties, and where it overflows. *)
Example float64_of_int_rounds :
  map float64_of_int
    [0; 3; -7; 2^53 + 1; 2^53 + 3; 2^63 - 1; 2^63; -(2^63) - 1;
     2^64 + 2^11; 2^64 + 2^11 + 1; 2^64 + 3 * 2^11; 2^64 + 3 * 2^11 - 1;
     10^30; -(10^30); 2^200 + 2^147; 2^200 + 3 * 2^147 - 1;
     2^1024 - 2^970 - 1; 2^1024 - 2^970; 2^1024] =
  map (λ z, SF2Prim (binary_normalize prec emax z 0 false))
    [0; 3; -7; 2^53 + 1; 2^53 + 3; 2^63 - 1; 2^63; -(2^63) - 1;
     2^64 + 2^11; 2^64 + 2^11 + 1; 2^64 + 3 * 2^11; 2^64 + 3 * 2^11 - 1;
     10^30; -(10^30); 2^200 + 2^147; 2^200 + 3 * 2^147 - 1;
     2^1024 - 2^970 - 1; 2^1024 - 2^970; 2^1024].
Proof. reflexivity. Qed.

(** [int] on the forms of a checkpoint number: sign, surrounding
    whitespace and single underscores between digits are read, anything
    else is refused. *)
Example digits_to_int_forms :
  map digits_to_int
    ["10"; "007"; "-3"; "+3"; " 3"; "3 "; "1_0"; "1__0"; "_1"; "1_"; "- 3";
     "final"; ""] =
  [Some 10; Some 7; Some (-3); Some 3; Some 3; Some 3; Some 10; None; None;
   None; None; None; None].
Proof. reflexivity. Qed.

(** The latest checkpoint is the last name in the order of [str]: here
    [checkpoint_9], not [checkpoint_10]. *)
Example sorted_checkpoint_names :
  last_item (sorted ["checkpoint_10"; "checkpoint_9"; "checkpoint_1"]) =
  Return "checkpoint_9" ∧
  last_item (split_underscore "checkpoint_9") = Return "9".
Proof. split; reflexivity. Qed.

(** C1 as stated fails: with [load_checkpoint] disabled the startup save
    of the synthetic trainer is not a distribution-only export. *)
Lemma C1_startup_save_not_dist_only :
  load_checkpoint trainer3 = false ∧
  ¬ dist_only_export trainer3
      (startup trainer3 no_checkpoints (fresh_world 0%nat)).2.
Proof.
  split; [reflexivity|]. unfold dist_only_export. intros Heq.
  discriminate Heq.
Qed.

Lemma C1_startup_save_is_accelerator_checkpoint_witness :
  load_checkpoint trainer3 = false ∧
  saves (startup trainer3 no_checkpoints (fresh_world 0%nat)).2
  = [ESaveState].
Proof.
  split; [reflexivity|].
  exact (proj1 (proj2 (C1_startup_save_is_accelerator_checkpoint trainer3
                         no_checkpoints (fresh_world 0%nat) eq_refl))).
Defined.


Lemma C3_missing_checkpoints_dir_falls_back_witness :
  load_checkpoint (resuming trainer3) = true ∧
  os_listdir no_checkpoints (checkpoints_dir (resuming trainer3))
  = Raise FileNotFoundError ∧
  startup (resuming trainer3) no_checkpoints (fresh_world 0%nat) =
  (Return tt, fresh_world 0%nat, missing_dir_events (resuming trainer3)).
Proof.
  split_and!; [reflexivity | reflexivity |].
  exact (proj1 (C3_missing_checkpoints_dir_falls_back (resuming trainer3)
           no_checkpoints 1 None 0%nat eq_refl eq_refl)).
Defined.

Lemma trainer3_loop_completes :
  EAtexitUnregister ∈
    (train trainer3 no_checkpoints 1 None (fresh_world 0%nat)).2.
Proof.
  apply list_elem_of_In. vm_compute.
  repeat (first [left; reflexivity | right]).
Defined.

(** C5 fails on the code in a fresh run of two epochs over three batches:
    no checkpoint is restored, yet the second epoch asks the accelerator
    to skip the three batches counted in the first epoch and goes through
    no batch at all. *)
Theorem C5_second_epoch_of_fresh_run_is_skipped :
  skips (train trainer3 no_checkpoints 2 None (fresh_world 0%nat)).2
  = [VInt 3] ∧
  processed (train trainer3 no_checkpoints 2 None (fresh_world 0%nat)).2
  = [(0, 0%nat); (0, 1%nat); (0, 2%nat)] ∧
  epoch_batches trainer3
    {| epoch := VInt 1; steps := VInt 3; global_loss := VInt 0 |} = [].
Proof. split_and!; reflexivity. Qed.

(** C6 fails on the code in a fresh run of two epochs over three batches
    with [max_steps = 0]. Epoch 0 stops after its batch 0, but the step
    counter it leaves is never reset: epoch 1 asks the accelerator to skip
    one batch of the loader and trains on the next one, the batch of loss
    1.5 that the bound cut off in epoch 0. The cut-off batch is rolled
    over into the next epoch. *)
Theorem C6_cut_off_batch_rolls_over :
  batches (dataset trainer3) = [3%float; 1.5%float; 0.75%float] ∧
  processed
    (train trainer3 no_checkpoints 2 (Some 0) (fresh_world 0%nat)).2
  = [(0, 0%nat); (1, 0%nat)] ∧
  skips (train trainer3 no_checkpoints 2 (Some 0) (fresh_world 0%nat)).2
  = [VInt 1] ∧
  printed_losses
    (train trainer3 no_checkpoints 2 (Some 0) (fresh_world 0%nat)).2
  = [VFloat 3%float; VFloat 1.5%float] ∧
  epoch_batches trainer3
    {| epoch := VInt 1; steps := VInt 1; global_loss := VFloat 3%float |}
  = [1.5%float; 0.75%float].
Proof. split_and!; reflexivity. Qed.

Lemma C9_empty_checkpoints_dir_raises_IndexError_witness :
  load_checkpoint (resuming trainer3) = true ∧
  os_listdir empty_checkpoints (checkpoints_dir (resuming trainer3))
  = Return [] ∧
  (train (resuming trainer3) empty_checkpoints 1 None
     (fresh_world 0%nat)).1.1 = Raise IndexError.
Proof.
  split_and!; [reflexivity | reflexivity |].
  exact (proj1 (proj2 (C9_empty_checkpoints_dir_raises_IndexError
           (resuming trainer3) empty_checkpoints 1 None (fresh_world 0%nat)
           eq_refl eq_refl))).
Defined.

Lemma C10_no_checkpoint_on_breaking_batch_witness :
  grad_accum trainer3 ≠ 0 ∧
  checkpoint_every trainer3 ≠ 0 ∧
  (Z.to_nat 2 < length (batches (dataset trainer3)))%nat ∧
  on_cadence trainer3 (Z.to_nat 2) ∧
  full_checkpoints None
    (batch_loop trainer3 (Some 2) 0 0 (batches (dataset trainer3))
       (fresh_world 0%nat)).2
  = filter (on_cadence trainer3) (seq 0 (Z.to_nat 2)).
Proof.
  split_and!; [discriminate | discriminate | cbn; lia | reflexivity |].
  exact (proj1 (proj2 (proj2 (C10_no_checkpoint_on_breaking_batch trainer3 0
           (batches (dataset trainer3)) (fresh_world 0%nat) 2 0
           ltac:(discriminate) ltac:(discriminate) eq_refl
           ltac:(cbn; lia) eq_refl)))).
Defined.

(** * Further properties of the trainer *)

(** ** TrainerState.load_state_dict beyond the round trip *)

Section LoadStateDictFacts.
Context `{FloatArith}.

(** X2: [load_state_dict] succeeds exactly on the mappings that hold the
    three keys; the state it leaves is made of the three values only,
    whatever the state held before and whatever else the mapping holds. *)
Theorem load_state_dict_succeeds_iff (self : TrainerState)
  (d : gmap string value) :
  ((load_state_dict self d).1 = Return tt ↔
   is_Some (d !! "epoch") ∧ is_Some (d !! "steps") ∧
   is_Some (d !! "global_loss")) ∧
  (∀ e s g, d !! "epoch" = Some e → d !! "steps" = Some s →
   d !! "global_loss" = Some g →
   load_state_dict self d =
   (Return tt, {| epoch := e; steps := s; global_loss := g |})).
Proof.
  unfold load_state_dict. split.
  - destruct (d !! "epoch") as [e|], (d !! "steps") as [s|],
      (d !! "global_loss") as [g|]; cbn;
      (split; [intros Hr; try discriminate Hr; eauto |
               intros (He & Hs & Hg);
               try (by destruct He); try (by destruct Hs);
               try (by destruct Hg); done]).
  - by intros e s g -> -> ->.
Qed.
End LoadStateDictFacts.

Lemma load_state_dict_succeeds_iff_witness :
  is_Some (({[ "epoch" := VInt 4 ]} : gmap string value) !! "epoch") ∧
  (load_state_dict saved3 (<[ "extra" := VInt 9 ]> (state_dict saved3))).1
  = Return tt.
Proof.
  split; [by eexists|].
  apply (proj1 (load_state_dict_succeeds_iff saved3
                  (<[ "extra" := VInt 9 ]> (state_dict saved3)))).
  split_and!; by eexists.
Defined.

(** ** Construction beyond the seed *)

Section PostInitFacts.
Context `{Collaborators}.

(** X3: [__post_init__] calls the default scheduler factory exactly when
    a scheduler is wanted and none is given. A given scheduler is never
    replaced, a trainer built with [use_scheduler] has one afterwards, and
    one built without it keeps what it was given and registers only its
    state for checkpointing; the state is always the fresh one. *)
Theorem post_init_scheduler_choice (self : Trainer) :
  (EDefaultSchedulerFactory ∈ (post_init self).1.1 ↔
   use_scheduler self = true ∧ scheduler self = None) ∧
  (∀ s, scheduler self = Some s →
        scheduler (post_init self).1.2 = Some s) ∧
  (use_scheduler self = true → is_Some (scheduler (post_init self).1.2)) ∧
  (use_scheduler self = false →
   scheduler (post_init self).1.2 = scheduler self) ∧
  registrations (post_init self).1.1 =
    (if use_scheduler self then ["scheduler"; "state"] else ["state"]) ∧
  (post_init self).2 = TrainerState_init.
Proof.
  unfold post_init, post_init_scheduler. cbn [fst snd scheduler].
  split_and!.
  - destruct (truthy (seed self)), (seed self), (use_scheduler self),
      (scheduler self); cbn;
      (split; [intros Hin | intros [? ?]; try done]);
      first [ done
            | (exfalso; revert Hin; not_in_list)
            | repeat first [ apply list_elem_of_here
                           | apply list_elem_of_further ] ].
  - by intros s ->.
  - intros ->. by destruct (scheduler self).
  - intros ->. by destruct (scheduler self).
  - by destruct (truthy (seed self)), (seed self), (use_scheduler self),
      (scheduler self).
  - done.
Qed.

(** X4: the keyword arguments the accelerator is built with are the three
    the trainer sets, overridden key by key by the caller's
    [accelerator_kwargs]: a caller's key wins, any other key keeps the
    trainer's value, and nothing else is passed. *)
Theorem acc_kwargs_caller_overrides (self : Trainer) (k : string) :
  (∀ v, accelerator_kwargs self !! k = Some v →
        acc_kwargs self !! k = Some v) ∧
  (accelerator_kwargs self !! k = None →
   acc_kwargs self !! k = default_acc_kwargs self !! k) ∧
  dom (acc_kwargs self) =
    dom (accelerator_kwargs self)
    ∪ {[ "gradient_accumulation_steps"; "project_dir"; "project_config" ]} ∧
  [EAccelerator (acc_kwargs self)] =
    omap (λ e, match e with EAccelerator kw => Some (EAccelerator kw)
               | _ => None end) (post_init self).1.1.
Proof.
  change (acc_kwargs self)
    with (accelerator_kwargs self ∪ default_acc_kwargs self).
  split_and!.
  - intros v Hv. by apply lookup_union_Some_l.
  - intros Hk. by apply lookup_union_r.
  - rewrite dom_union_L. by f_equal.
  - unfold post_init. cbn [fst].
    by destruct (truthy (seed self)), (seed self), (use_scheduler self),
      (scheduler self).
Qed.
End PostInitFacts.

Lemma post_init_scheduler_choice_witness :
  use_scheduler trainer3 = false ∧
  scheduler (post_init trainer3).1.2 = scheduler trainer3.
Proof.
  split; [reflexivity|].
  exact (proj1 (proj2 (proj2 (proj2 (post_init_scheduler_choice trainer3))))
           eq_refl).
Defined.

Lemma acc_kwargs_caller_overrides_witness :
  accelerator_kwargs trainer3 !! "project_dir" = None ∧
  acc_kwargs trainer3 !! "project_dir" =
  default_acc_kwargs trainer3 !! "project_dir".
Proof.
  split; [reflexivity|].
  exact (proj1 (proj2 (acc_kwargs_caller_overrides trainer3 "project_dir"))
           eq_refl).
Defined.

(** ** Choosing the latest checkpoint *)

Section LatestCheckpoint.
Context `{Collaborators}.

Lemma insert_sorted_perm (x : string) (l : list string) :
  insert_sorted x l ≡ₚ x :: l.
Proof.
  induction l as [|y r IH]; [done|]. cbn.
  destruct (String.leb x y); [done|].
  rewrite IH. apply Permutation_swap.
Qed.

Lemma sorted_perm (names : list string) : sorted names ≡ₚ names.
Proof.
  unfold sorted. induction names as [|x r IH]; [done|].
  cbn. by rewrite insert_sorted_perm, IH.
Qed.

Lemma insert_sorted_StronglySorted (x : string) (l : list string) :
  StronglySorted String.le l → StronglySorted String.le (insert_sorted x l).
Proof.
  induction 1 as [|y r Hr IH Hy]; cbn.
  { repeat constructor. }
  destruct (String.leb x y) eqn:Hxy.
  - constructor; [by constructor|].
    assert (Hle : String.le x y) by (unfold String.le; by rewrite Hxy).
    constructor; [done|].
    eapply Forall_impl; [exact Hy|]. intros z Hz. by etrans.
  - constructor; [done|].
    rewrite insert_sorted_perm. constructor; [|done].
    destruct (total String.le x y) as [Hle|Hle]; [|done].
    unfold String.le in Hle. by rewrite Hxy in Hle.
Qed.

Lemma sorted_StronglySorted (names : list string) :
  StronglySorted String.le (sorted names).
Proof.
  unfold sorted. induction names as [|x r IH]; [constructor|].
  cbn. by apply insert_sorted_StronglySorted.
Qed.

(** X5: the checkpoint the resume path picks, [sorted(names)[-1]], is an
    entry of the listing that no entry exceeds in the order of [str];
    the indexing raises [IndexError] exactly on the empty listing. *)
Theorem latest_checkpoint_is_maximum (names : list string) :
  match last_item (sorted names) with
  | Return x => x ∈ names ∧ ∀ y, y ∈ names → String.leb y x = true
  | Raise e => e = IndexError ∧ names = []
  end.
Proof.
  unfold last_item.
  destruct (last (sorted names)) as [x|] eqn:Hlast.
  - pose proof (sorted_StronglySorted names) as Hsorted.
    apply last_Some in Hlast as [l' Hl'].
    split.
    + rewrite <- (sorted_perm names), Hl'. set_solver.
    + intros y Hy. rewrite <- (sorted_perm names), Hl' in Hy.
      rewrite Hl' in Hsorted.
      apply elem_of_app in Hy as [Hy|Hy].
      * apply Is_true_true.
        by apply (StronglySorted_app_1_elem_of String.le l' [x] y x);
          [|  | apply list_elem_of_here].
      * apply list_elem_of_singleton in Hy as ->.
        apply Is_true_true. change (String.le x x). done.
  - split; [done|].
    apply last_None in Hlast. apply Permutation_nil_r.
    by rewrite <- Hlast, sorted_perm.
Qed.

(** X6: the choice does not depend on the order in which [os.listdir]
    returns the entries: two listings of the same entries sort to the
    same list and give the same latest checkpoint. *)
Theorem latest_checkpoint_order_independent (names1 names2 : list string) :
  names1 ≡ₚ names2 →
  sorted names1 = sorted names2 ∧
  last_item (sorted names1) = last_item (sorted names2).
Proof.
  intros Hperm.
  assert (Heq : sorted names1 = sorted names2).
  { apply (Sorted_unique String.le).
    - apply StronglySorted_Sorted, sorted_StronglySorted.
    - apply StronglySorted_Sorted, sorted_StronglySorted.
    - by rewrite !sorted_perm. }
  by rewrite Heq.
Qed.

Lemma split_underscore_nonempty (s : string) : split_underscore s ≠ [].
Proof.
  destruct s as [|c s]; [done|]. cbn.
  destruct (Ascii.eqb c "_"); [done|]. by destruct (split_underscore s).
Qed.

Lemma split_underscore_app (p s : string) :
  split_underscore (p +:+ "_" +:+ s) =
  split_underscore p ++ split_underscore s.
Proof.
  induction p as [|c p IH]; [done|].
  change (String c p +:+ "_" +:+ s) with (String c (p +:+ "_" +:+ s)).
  cbn [split_underscore]. rewrite IH.
  destruct (Ascii.eqb c "_"); [done|].
  pose proof (split_underscore_nonempty p) as Hp.
  by destruct (split_underscore p).
Qed.

Lemma split_underscore_none (q : string) :
  no_underscore q = true → split_underscore q = [q].
Proof.
  induction q as [|c q IH]; [done|]. cbn.
  destruct (Ascii.eqb c "_"); [done|]. cbn. intros Hq. by rewrite IH.
Qed.

(** X7: [split("_")] and ["_".join] are inverse on every name: the fields
    hold no underscore and joining them gives the name back. *)
Theorem split_underscore_join (s : string) :
  join_underscore (split_underscore s) = s ∧
  Forall (λ f, no_underscore f = true) (split_underscore s) ∧
  split_underscore s ≠ [].
Proof.
  induction s as [|c s (IHj & IHf & IHn)]; [by repeat constructor|].
  cbn [split_underscore].
  destruct (Ascii.eqb_spec c "_"%char) as [->|Hc].
  - split_and!; [| by constructor | done].
    destruct (split_underscore s) as [|h t] eqn:Hs; [done|].
    change (join_underscore ("" :: h :: t))
      with ("" +:+ "_" +:+ join_underscore (h :: t)).
    by rewrite IHj.
  - destruct (split_underscore s) as [|h t] eqn:Hs; [done|].
    apply Forall_cons in IHf as [Hh Ht].
    split_and!; [| | done].
    + rewrite <- IHj. by destruct t.
    + constructor; [|done]. cbn. rewrite Hh.
      by destruct (Ascii.eqb_spec c "_"%char).
Qed.

(** X8: the number the resume path reads off a checkpoint name is the
    part after its last underscore: for a name [p_q] with no underscore
    in [q] the last field is [q], and a name with no underscore at all is
    its own last field. Splitting distributes over an underscore. *)
Theorem checkpoint_number_field (p q : string) :
  no_underscore q = true →
  last_item (split_underscore (p +:+ "_" +:+ q)) = Return q ∧
  last_item (split_underscore q) = Return q ∧
  ∀ s, split_underscore (p +:+ "_" +:+ s) =
       split_underscore p ++ split_underscore s.
Proof.
  intros Hq. unfold last_item.
  rewrite split_underscore_app, (split_underscore_none q Hq), last_snoc.
  split_and!; [done | done |]. apply split_underscore_app.
Qed.
End LatestCheckpoint.

Lemma latest_checkpoint_order_independent_witness :
  ["checkpoint_1"; "checkpoint_0"] ≡ₚ ["checkpoint_0"; "checkpoint_1"] ∧
  sorted ["checkpoint_1"; "checkpoint_0"] =
  sorted ["checkpoint_0"; "checkpoint_1"].
Proof.
  split; [apply Permutation_swap|].
  exact (proj1 (latest_checkpoint_order_independent
                  ["checkpoint_1"; "checkpoint_0"]
                  ["checkpoint_0"; "checkpoint_1"]
                  (Permutation_swap _ _ _))).
Defined.

Lemma checkpoint_number_field_witness :
  no_underscore "12" = true ∧
  last_item (split_underscore ("my_run_checkpoint" +:+ "_" +:+ "12"))
  = Return "12".
Proof.
  split; [reflexivity|].
  exact (proj1 (checkpoint_number_field "my_run_checkpoint" "12" eq_refl)).
Defined.

(** ** The resume path *)

Section ResumeFacts.
Context `{Collaborators}.

Lemma load_state_dict_state_dict (self st : TrainerState) :
  load_state_dict self (state_dict st) = (Return tt, st).
Proof.
  unfold load_state_dict.
  rewrite state_dict_lookup_epoch, state_dict_lookup_steps,
    state_dict_lookup_global_loss.
  by destruct st.
Qed.

(** X9: a successful resume. When the latest entry of the checkpoints
    directory restores and its name ends in a number [n], the startup
    replaces the trainer state and the prepared objects by the saved
    ones, sets the accelerator's next checkpoint number to [n + 1], and
    makes no save of its own; the run is then the training loop from the
    restored state. *)
Theorem startup_resume_success (self : Trainer) (fs : filesystem)
  (w : world) (names : list string) (last_cp sfx : string) (o : Objs)
  (st : TrainerState) (n : Z) (epochs : Z) (max_steps : option Z) :
  load_checkpoint self = true →
  os_listdir fs (checkpoints_dir self) = Return names →
  last_item (sorted names) = Return last_cp →
  accelerator_load_state fs (checkpoints_dir self +:+ last_cp)
    = Loaded o (state_dict st) →
  last_item (split_underscore last_cp) = Return sfx →
  int_of_str sfx = Some n →
  startup self fs w =
    (Return tt, {| state := st; objs := o |}, resume_events self last_cp n) ∧
  saves (resume_events self last_cp n) = [] ∧
  _train_accelerate self fs epochs max_steps w =
    (let '(r, w', tr) :=
       training_loop self epochs max_steps {| state := st; objs := o |} in
     (r, w', resume_events self last_cp n ++ tr)).
Proof.
  intros Hl Hdir Hlast Hload Hsfx Hint.
  assert (Hstart : startup self fs w =
    (Return tt, {| state := st; objs := o |}, resume_events self last_cp n)).
  { unfold startup, load_last_checkpoint, load_state, py_int. rewrite Hl.
    unfold mbind, M_bind, bind, try_except_FileNotFoundError, emit, lift.
    rewrite Hdir, Hlast, Hload, load_state_dict_state_dict, Hsfx, Hint.
    reflexivity. }
  split_and!; [done | done |].
  rewrite train_accelerate_unfold, Hstart.
  by destruct (training_loop self epochs max_steps _) as [[r w'] tr].
Qed.

(** X10: a listed checkpoint whose files are gone. When restoring the
    latest entry raises [FileNotFoundError], the handler takes over as
    for a missing directory: two warnings and the save without the dist
    export, with the trainer state and objects as they were. Nothing has
    set the accelerator's counter by then, so that [save_state] writes
    [checkpoint_0]: it returns exactly when the directory lists no such
    entry, and the startup returns then. *)
Theorem startup_stale_checkpoint_falls_back (self : Trainer)
  (fs : filesystem) (w : world) (names : list string) (last_cp : string) :
  load_checkpoint self = true →
  os_listdir fs (checkpoints_dir self) = Return names →
  last_item (sorted names) = Return last_cp →
  accelerator_load_state fs (checkpoints_dir self +:+ last_cp)
    = LoadFails FileNotFoundError →
  (startup self fs w).2 = stale_checkpoint_events self last_cp ∧
  (startup self fs w).1.2 = w ∧
  saves (startup self fs w).2 = [ESaveState] ∧
  saves_succeed self fs (startup self fs w).2 =
    bool_decide (checkpoint_name 0 ∉ names) ∧
  (checkpoint_name 0 ∉ names → (startup self fs w).1.1 = Return tt).
Proof.
  intros Hl Hdir Hlast Hload.
  assert (Hstart : startup self fs w =
    (Return tt, w, stale_checkpoint_events self last_cp)).
  { unfold startup, load_last_checkpoint, load_state. rewrite Hl.
    unfold mbind, M_bind, bind, try_except_FileNotFoundError, emit, lift.
    rewrite Hdir, Hlast, Hload. reflexivity. }
  rewrite Hstart. cbn [fst snd].
  split_and!; [done | done | done | | done].
  unfold saves_succeed, checkpoint_entries. rewrite Hdir.
  cbn [stale_checkpoint_events save_state_succeeds].
  by rewrite bool_decide_not, andb_true_r.
Qed.

(** X11: a latest checkpoint whose name does not end in a number. The
    checkpoint is restored first, so when [int] raises [ValueError] the
    trainer already holds the saved state and objects; the error is not
    caught, [train] raises it, the exit hook is never registered and
    nothing is saved. *)
Theorem startup_unnumbered_checkpoint_raises (self : Trainer)
  (fs : filesystem) (w : world) (names : list string) (last_cp sfx : string)
  (o : Objs) (st : TrainerState) (epochs : Z) (max_steps : option Z) :
  load_checkpoint self = true →
  os_listdir fs (checkpoints_dir self) = Return names →
  last_item (sorted names) = Return last_cp →
  accelerator_load_state fs (checkpoints_dir self +:+ last_cp)
    = Loaded o (state_dict st) →
  last_item (split_underscore last_cp) = Return sfx →
  int_of_str sfx = None →
  (train self fs epochs max_steps w).1 =
    (Raise ValueError, {| state := st; objs := o |}) ∧
  saves (train self fs epochs max_steps w).2 = [] ∧
  (EAtexitRegister ∉ (train self fs epochs max_steps w).2).
Proof.
  intros Hl Hdir Hlast Hload Hsfx Hint.
  assert (Hstart : startup self fs w =
    (Raise ValueError, {| state := st; objs := o |},
     [EModelTrain; EListdir (checkpoints_dir self);
      ELogInfo "Trying to load checkpoint: {}...." [LStr last_cp];
      ELoadState (checkpoints_dir self +:+ last_cp)])).
  { unfold startup, load_last_checkpoint, load_state, py_int. rewrite Hl.
    unfold mbind, M_bind, bind, try_except_FileNotFoundError, emit, lift.
    rewrite Hdir, Hlast, Hload, load_state_dict_state_dict, Hsfx, Hint.
    reflexivity. }
  rewrite train_cases, Hstart. cbn [fst snd].
  unfold saves, train_banner.
  split_and!; [done | |];
    destruct max_steps as [m|]; [destruct (m =? 0)| |destruct (m =? 0)|];
    first [ reflexivity | cbn; not_in_list ].
Qed.

(** X12: an exception of the resume attempt that the handler does not
    catch, that is any but [FileNotFoundError], ends the run. [train]
    raises it with the world the attempt left, before the exit hook is
    registered: no batch is gone through and neither [save_state] nor the
    dist export is called. *)
Theorem resume_failure_aborts_train (self : Trainer) (fs : filesystem)
  (epochs : Z) (max_steps : option Z) (w : world) (e : exn) :
  load_checkpoint self = true →
  (load_last_checkpoint self fs w).1.1 = Raise e →
  e ≠ FileNotFoundError →
  (train self fs epochs max_steps w).1 =
    (Raise e, (load_last_checkpoint self fs w).1.2) ∧
  processed (train self fs epochs max_steps w).2 = [] ∧
  saves (train self fs epochs max_steps w).2 = [] ∧
  (EAtexitRegister ∉ (train self fs epochs max_steps w).2).
Proof.
  intros Hl Hraise Hne.
  assert (Hstart :
    (startup self fs w).1 = (Raise e, (load_last_checkpoint self fs w).1.2) ∧
    processed (startup self fs w).2 = [] ∧
    saves (startup self fs w).2 = [] ∧
    (EAtexitRegister ∉ (startup self fs w).2)).
  { revert Hraise. unfold startup. rewrite Hl.
    unfold load_last_checkpoint, load_state, _save, _save_dist,
      try_except_FileNotFoundError, mbind, M_bind, bind, emit, lift, ret,
      last_item, py_int.
    repeat case_match; simplify_eq; cbn; intros Hr; simplify_eq;
      (split_and!; [reflexivity | reflexivity | reflexivity | not_in_list]). }
  destruct Hstart as (Hs1 & Hp & Hs & Hreg).
  rewrite train_cases.
  destruct (startup self fs w) as [[[[]|e'] w1] t0]; cbn [fst snd] in *;
    [discriminate|]. simplify_eq.
  unfold saves in *. rewrite processed_app, filter_app, Hp, Hs.
  unfold train_banner.
  split_and!; [done | | |];
    destruct max_steps as [m|]; [destruct (m =? 0)| |destruct (m =? 0)|
                                 |destruct (m =? 0)|];
    first [ reflexivity | apply not_elem_of_app; split;
                          [cbn; not_in_list | done] ].
Qed.
End ResumeFacts.

Lemma startup_resume_success_witness :
  load_checkpoint (resuming trainer3) = true ∧
  os_listdir two_checkpoints (checkpoints_dir (resuming trainer3))
    = Return ["checkpoint_1"; "checkpoint_0"] ∧
  last_item (sorted ["checkpoint_1"; "checkpoint_0"]) = Return "checkpoint_1" ∧
  int_of_str "1" = Some 1 ∧
  startup (resuming trainer3) two_checkpoints (fresh_world 0%nat) =
  (Return tt, {| state := saved3; objs := 5%nat |},
   resume_events (resuming trainer3) "checkpoint_1" 1).
Proof.
  split_and!; [reflexivity | reflexivity | reflexivity | reflexivity |].
  exact (proj1 (startup_resume_success (resuming trainer3) two_checkpoints
           (fresh_world 0%nat) ["checkpoint_1"; "checkpoint_0"]
           "checkpoint_1" "1" 5%nat saved3 1 2 None
           eq_refl eq_refl eq_refl eq_refl eq_refl eq_refl)).
Defined.

Lemma startup_stale_checkpoint_falls_back_witness :
  load_checkpoint (resuming trainer3) = true ∧
  last_item (sorted ["checkpoint_0"]) = Return "checkpoint_0" ∧
  accelerator_load_state stale_checkpoint
    (checkpoints_dir (resuming trainer3) +:+ "checkpoint_0")
    = LoadFails FileNotFoundError ∧
  (startup (resuming trainer3) stale_checkpoint (fresh_world 0%nat)).2 =
    stale_checkpoint_events (resuming trainer3) "checkpoint_0" ∧
  saves_succeed (resuming trainer3) stale_checkpoint
    (startup (resuming trainer3) stale_checkpoint (fresh_world 0%nat)).2 =
    false.
Proof.
  split_and!; [reflexivity | reflexivity | reflexivity | |].
  - exact (proj1 (startup_stale_checkpoint_falls_back (resuming trainer3)
             stale_checkpoint (fresh_world 0%nat) ["checkpoint_0"]
             "checkpoint_0" eq_refl eq_refl eq_refl eq_refl)).
  - exact (proj1 (proj2 (proj2 (proj2
             (startup_stale_checkpoint_falls_back (resuming trainer3)
                stale_checkpoint (fresh_world 0%nat) ["checkpoint_0"]
                "checkpoint_0" eq_refl eq_refl eq_refl eq_refl))))).
Defined.

(** The same fall-back in a directory that lists no [checkpoint_0]: the
    save returns. *)
Example stale_checkpoint_7_falls_back :
  startup (resuming trainer3) stale_checkpoint_7 (fresh_world 0%nat) =
    (Return tt, fresh_world 0%nat,
     stale_checkpoint_events (resuming trainer3) "checkpoint_7") ∧
  saves_succeed (resuming trainer3) stale_checkpoint_7
    (startup (resuming trainer3) stale_checkpoint_7 (fresh_world 0%nat)).2 =
    true.
Proof. split; reflexivity. Qed.

Lemma startup_unnumbered_checkpoint_raises_witness :
  load_checkpoint (resuming trainer3) = true ∧
  last_item (split_underscore "checkpoint_final") = Return "final" ∧
  int_of_str "final" = None ∧
  (train (resuming trainer3) unnumbered_checkpoint 1 None
     (fresh_world 0%nat)).1 =
  (Raise ValueError, {| state := saved3; objs := 5%nat |}).
Proof.
  split_and!; [reflexivity | reflexivity | reflexivity |].
  exact (proj1 (startup_unnumbered_checkpoint_raises (resuming trainer3)
           unnumbered_checkpoint (fresh_world 0%nat) ["checkpoint_final"]
           "checkpoint_final" "final" 5%nat saved3 1 None
           eq_refl eq_refl eq_refl eq_refl eq_refl eq_refl)).
Defined.

Lemma resume_failure_aborts_train_witness :
  load_checkpoint (resuming trainer3) = true ∧
  (load_last_checkpoint (resuming trainer3) empty_checkpoints
     (fresh_world 0%nat)).1.1 = Raise IndexError ∧
  IndexError ≠ FileNotFoundError ∧
  (train (resuming trainer3) empty_checkpoints 1 None (fresh_world 0%nat)).1
    = (Raise IndexError,
       (load_last_checkpoint (resuming trainer3) empty_checkpoints
          (fresh_world 0%nat)).1.2).
Proof.
  split_and!; [reflexivity | reflexivity | discriminate |].
  exact (proj1 (resume_failure_aborts_train (resuming trainer3)
           empty_checkpoints 1 None (fresh_world 0%nat) IndexError
           eq_refl eq_refl ltac:(discriminate))).
Defined.

(** ** Edges of the loop *)

Section LoopEdges.
Context `{Collaborators}.

(** X13: nothing left to train. When the requested number of epochs does
    not exceed the epoch counter (a finished run trained again or resumed),
    the loop body never runs: the exit hook is registered and removed, one
    full checkpoint is written, the state is untouched and the result is
    [global_loss / steps] of the state as it was, which raises
    [ZeroDivisionError] if that step counter is zero. *)
Theorem training_loop_no_epoch_left (self : Trainer) (epochs : Z)
  (max_steps : option Z) (w : world) (e0 : Z) :
  epoch (state w) = VInt e0 →
  epochs ≤ e0 →
  training_loop self epochs max_steps w =
  (py_truediv (global_loss (state w)) (steps (state w)), w,
   [EAtexitRegister; EAtexitUnregister] ++ full_save_events self).
Proof.
  intros He Hle. rewrite training_loop_unfold, He. cbn [py_range].
  by replace (Z.to_nat (epochs - e0)) with 0%nat by lia.
Qed.

Lemma epoch_loop_epoch (self : Trainer) (max_steps : option Z)
  (eps : list Z) (w : world) (e : Z) :
  grad_accum self ≠ 0 →
  checkpoint_every self ≠ 0 →
  epoch (state w) = VInt e →
  epoch (state (epoch_loop self max_steps eps w).1.2)
  = VInt (e + Z.of_nat (length eps)).
Proof.
  intros Hg HN. revert w e. induction eps as [|ep rest IH]; intros w e He.
  { cbn. by rewrite Z.add_0_r. }
  rewrite epoch_loop_cons, epoch_iteration_unfold. cbn zeta.
  pose proof (batch_loop_returns self max_steps ep
                (epoch_batches self (state w)) 0 w Hg HN) as Hret.
  pose proof (batch_loop_counts self max_steps ep
                (epoch_batches self (state w)) 0 w) as (_ & Hepoch & _).
  destruct (batch_loop self max_steps ep 0 _ w) as [[r w1] t1].
  cbn [fst snd] in *. subst r.
  set (w2 := {| state := incr_epoch _ |}).
  assert (He2 : epoch (state w2) = VInt (e + 1)).
  { subst w2. cbn. by rewrite Hepoch, He. }
  specialize (IH w2 _ He2).
  destruct (epoch_loop self max_steps rest w2) as [[o w3] t3].
  cbn [fst snd length] in *. rewrite IH. f_equal. lia.
Qed.

(** X14: with a nonzero [grad_accum] and [checkpoint_every] the loop runs
    one iteration per epoch from the epoch counter up to the requested
    number, whatever [max_steps] cuts inside them: it ends with the epoch
    counter at the larger of the two. *)
Theorem training_loop_final_epoch (self : Trainer) (epochs : Z)
  (max_steps : option Z) (w : world) (e0 : Z) :
  grad_accum self ≠ 0 →
  checkpoint_every self ≠ 0 →
  epoch (state w) = VInt e0 →
  epoch (state (training_loop self epochs max_steps w).1.2)
  = VInt (Z.max e0 epochs).
Proof.
  intros Hg HN He. rewrite training_loop_unfold, He. cbn [py_range].
  set (eps := map _ _).
  pose proof (epoch_loop_returns self max_steps eps w Hg HN) as Hret.
  pose proof (epoch_loop_epoch self max_steps eps w e0 Hg HN He) as Hep.
  destruct (epoch_loop self max_steps eps w) as [[r w1] t1].
  cbn [fst snd] in *. subst r. cbn [fst snd]. rewrite Hep. f_equal.
  subst eps. rewrite length_map, length_seq. lia.
Qed.

(** X15: a zero [checkpoint_every] is met after the first batch is
    accounted for. On a fresh run over a nonempty loader whose first batch
    does not reach [max_steps], the batch is trained on, its loss is
    recorded and the step counter is 1 when the cadence check raises
    [ZeroDivisionError]; no checkpoint is made in the loop and the exit
    hook is still registered. *)
Theorem zero_checkpoint_every_raises_after_first_batch (self : Trainer)
  (fs : filesystem) (epochs : Z) (max_steps : option Z) (o : Objs)
  (b : Batch) (rest : list Batch) :
  load_checkpoint self = false →
  grad_accum self ≠ 0 →
  checkpoint_every self = 0 →
  reached_max_steps max_steps 0 = false →
  batches (dataset self) = b :: rest →
  1 ≤ epochs →
  let bl := VFloat (float_div (model_loss o b)
                      (float_of_int (grad_accum self))) in
  _train_accelerate self fs epochs max_steps (fresh_world o) =
  (Raise ZeroDivisionError,
   {| state := {| epoch := VInt 0; steps := VInt 1;
                  global_loss := py_add (VInt 0) bl |};
      objs := step_objs self o b |},
   [EModelTrain; EWaitForEveryone; ESaveState; EAtexitRegister]
     ++ step_calls self ++ [EPrint 0 0 bl]).
Proof.
  intros Hl Hg HN Hmax Hb He bl.
  rewrite train_accelerate_unfold, (startup_no_resume self fs _ Hl),
    training_loop_unfold.
  cbn [py_range fresh_world state epoch TrainerState_init].
  destruct (Z.to_nat (epochs - 0)) as [|k] eqn:Hk; [lia|].
  cbn [seq map]. change (0 + Z.of_nat 0) with 0.
  rewrite epoch_loop_cons, epoch_iteration_unfold.
  unfold epoch_batches.
  cbn [py_gt0 fresh_world state steps TrainerState_init].
  replace (0 <? 0) with false by done. cbn zeta.
  rewrite Hb, batch_loop_cons, train_step_unfold, py_truediv_int.
  apply Z.eqb_neq in Hg as ->. cbn zeta. rewrite Hmax.
  unfold py_mod. rewrite HN. reflexivity.
Qed.

(** X16: [max_steps] of zero or less still trains on one batch per epoch.
    The bound is tested after the step, so the batch of index 0 is
    trained on and counted, then the loop breaks: no checkpoint is made in
    the loop, and no cadence check runs (a zero [checkpoint_every] goes
    unnoticed). *)
Theorem nonpositive_max_steps_trains_one_batch (self : Trainer) (K : Z)
  (ep : Z) (b : Batch) (rest : list Batch) (w : world) :
  grad_accum self ≠ 0 →
  K ≤ 0 →
  let bl := VFloat (float_div (model_loss (objs w) b)
                      (float_of_int (grad_accum self))) in
  batch_loop self (Some K) ep 0 (b :: rest) w =
    (Return tt,
     {| state := incr_steps (add_loss bl (state w));
        objs := step_objs self (objs w) b |},
     step_calls self ++ [EPrint ep 0 bl]) ∧
  processed (batch_loop self (Some K) ep 0 (b :: rest) w).2 = [(ep, 0%nat)] ∧
  saves (batch_loop self (Some K) ep 0 (b :: rest) w).2 = [].
Proof.
  intros Hg HK bl.
  assert (Hrun : batch_loop self (Some K) ep 0 (b :: rest) w =
    (Return tt,
     {| state := incr_steps (add_loss bl (state w));
        objs := step_objs self (objs w) b |},
     step_calls self ++ [EPrint ep 0 bl])).
  { rewrite batch_loop_cons, train_step_unfold, py_truediv_int.
    apply Z.eqb_neq in Hg as ->. cbn zeta. unfold reached_max_steps.
    by destruct (Z.leb_spec K (Z.of_nat 0)); [|lia]. }
  rewrite Hrun. cbn [snd]. rewrite processed_step.
  split_and!; [done | done |].
  unfold saves, step_calls. by destruct (use_scheduler self).
Qed.

(** X17: a [max_steps] no batch index reaches is no bound at all: over a
    loader whose indices all lie below it the batch loop does exactly what
    it does with [max_steps=None], checkpoints and errors included. *)
Theorem unreached_max_steps_is_no_bound (self : Trainer) (K : Z) (ep : Z)
  (ds : list Batch) (i : nat) (w : world) :
  Z.of_nat (i + length ds) ≤ K →
  batch_loop self (Some K) ep i ds w = batch_loop self None ep i ds w.
Proof.
  revert i w. induction ds as [|b rest IH]; intros i w HK; [done|].
  rewrite !batch_loop_cons.
  destruct (train_step self ep i b w) as [[[[]|e] w1] t1]; [|done].
  cbn zeta. unfold reached_max_steps.
  rewrite length_cons in HK.
  destruct (Z.leb_spec K (Z.of_nat i)); [lia|].
  destruct (py_mod (Z.of_nat i) (checkpoint_every self)) as [r|e]; [|done].
  rewrite IH; [done|]. lia.
Qed.
End LoopEdges.

Lemma training_loop_no_epoch_left_witness :
  epoch (state {| state := saved3; objs := 5%nat |}) = VInt 1 ∧
  1 ≤ 1 ∧
  (training_loop trainer3 1 None {| state := saved3; objs := 5%nat |}).1 =
  (Return (VFloat 2.25%float), {| state := saved3; objs := 5%nat |}).
Proof.
  split_and!; [reflexivity | lia |].
  exact (f_equal fst (training_loop_no_epoch_left trainer3 1 None
           {| state := saved3; objs := 5%nat |} 1 eq_refl ltac:(lia))).
Defined.

Lemma training_loop_final_epoch_witness :
  grad_accum trainer3 ≠ 0 ∧
  checkpoint_every trainer3 ≠ 0 ∧
  epoch (state (fresh_world 0%nat)) = VInt 0 ∧
  epoch (state (training_loop trainer3 4 (Some 1) (fresh_world 0%nat)).1.2)
  = VInt (Z.max 0 4).
Proof.
  split_and!; [discriminate | discriminate | reflexivity |].
  exact (training_loop_final_epoch trainer3 4 (Some 1) (fresh_world 0%nat) 0
           ltac:(discriminate) ltac:(discriminate) eq_refl).
Defined.

Lemma zero_checkpoint_every_raises_after_first_batch_witness :
  load_checkpoint (with_checkpoint_every trainer3 0) = false ∧
  grad_accum (with_checkpoint_every trainer3 0) ≠ 0 ∧
  checkpoint_every (with_checkpoint_every trainer3 0) = 0 ∧
  reached_max_steps None 0 = false ∧
  (_train_accelerate (with_checkpoint_every trainer3 0) no_checkpoints 1 None
     (fresh_world 0%nat)).1.1 = Raise ZeroDivisionError.
Proof.
  split_and!; [reflexivity | discriminate | reflexivity | reflexivity |].
  exact (f_equal (λ r, r.1.1)
           (zero_checkpoint_every_raises_after_first_batch
              (with_checkpoint_every trainer3 0) no_checkpoints 1 None 0%nat
              3%float [1.5%float; 0.75%float] eq_refl ltac:(discriminate)
              eq_refl eq_refl eq_refl ltac:(lia))).
Defined.

Lemma nonpositive_max_steps_trains_one_batch_witness :
  grad_accum trainer3 ≠ 0 ∧
  0 ≤ 0 ∧
  processed (batch_loop trainer3 (Some 0) 0 0
               [3%float; 1.5%float; 0.75%float] (fresh_world 0%nat)).2
  = [(0, 0%nat)].
Proof.
  split_and!; [discriminate | lia |].
  exact (proj1 (proj2 (nonpositive_max_steps_trains_one_batch trainer3 0 0
           3%float [1.5%float; 0.75%float] (fresh_world 0%nat)
           ltac:(discriminate) ltac:(lia)))).
Defined.

Lemma unreached_max_steps_is_no_bound_witness :
  Z.of_nat (0 + length [3%float; 1.5%float; 0.75%float]) ≤ 3 ∧
  batch_loop trainer3 (Some 3) 0 0 [3%float; 1.5%float; 0.75%float]
    (fresh_world 0%nat) =
  batch_loop trainer3 None 0 0 [3%float; 1.5%float; 0.75%float]
    (fresh_world 0%nat).
Proof.
  split; [cbn; lia|].
  exact (unreached_max_steps_is_no_bound trainer3 3 0
           [3%float; 1.5%float; 0.75%float] 0%nat (fresh_world 0%nat)
           ltac:(cbn; lia)).
Defined.

(** ** What a whole run adds up to *)

Section Accounts.
Context `{Collaborators}.

Lemma printed_losses_app (t1 t2 : list event) :
  printed_losses (t1 ++ t2) = printed_losses t1 ++ printed_losses t2.
Proof.
  induction t1 as [|e t1 IH]; [done|].
  destruct e; cbn; by rewrite ?IH.
Qed.

Lemma step_calls_of_app (t1 t2 : list event) :
  step_calls_of (t1 ++ t2) = step_calls_of t1 ++ step_calls_of t2.
Proof. apply filter_app. Qed.

Lemma skips_app (t1 t2 : list event) :
  skips (t1 ++ t2) = skips t1 ++ skips t2.
Proof. apply omap_app. Qed.

Lemma step_calls_summary (self : Trainer) :
  printed_losses (step_calls self) = [] ∧
  step_calls_of (step_calls self) = step_calls self ∧
  skips (step_calls self) = [].
Proof. unfold step_calls. by destruct (use_scheduler self). Qed.

(** The startup and the banner of [train] print no loss, make no step
    call and skip no batch. *)
Lemma startup_silent (self : Trainer) (fs : filesystem) (w : world) :
  printed_losses (startup self fs w).2 = [] ∧
  step_calls_of (startup self fs w).2 = [] ∧
  skips (startup self fs w).2 = [] ∧
  (EAtexitRegister ∉ (startup self fs w).2).
Proof.
  unfold startup, load_last_checkpoint, load_state, _save, _save_dist,
    try_except_FileNotFoundError, mbind, M_bind, bind, emit, lift, ret,
    last_item, py_int.
  repeat case_match; simplify_eq; cbn;
    (split_and!; [reflexivity | reflexivity | reflexivity | not_in_list]).
Qed.

Lemma banner_silent (self : Trainer) (epochs : Z) (max_steps : option Z)
  (o : Objs) :
  printed_losses (train_banner self epochs max_steps o) = [] ∧
  step_calls_of (train_banner self epochs max_steps o) = [] ∧
  skips (train_banner self epochs max_steps o) = [] ∧
  (EAtexitRegister ∉ train_banner self epochs max_steps o).
Proof.
  unfold train_banner.
  destruct max_steps as [m|]; [destruct (m =? 0)|]; cbn;
    (split_and!; [reflexivity | reflexivity | reflexivity | not_in_list]).
Qed.

Lemma accounts_iteration (self : Trainer) (ep : Z) (i : nat) (bl : value)
  (r : Z) (t3 : list event) :
  printed_losses
    ((step_calls self ++ [EPrint ep i bl])
       ++ (if r =? 0 then full_save_events self else []) ++ t3) =
  bl :: printed_losses t3 ∧
  step_calls_of
    ((step_calls self ++ [EPrint ep i bl])
       ++ (if r =? 0 then full_save_events self else []) ++ t3) =
  step_calls self ++ step_calls_of t3.
Proof.
  destruct (step_calls_summary self) as (Hpl & Hsc & _).
  rewrite !printed_losses_app, !step_calls_of_app, Hpl, Hsc.
  rewrite <- (app_assoc (step_calls self)).
  destruct (r =? 0); (split; [done | by f_equal]).
Qed.

(** The batch loop adds every loss it prints to [global_loss], and its
    step calls are one [step_calls] block per batch it prints. *)
Lemma batch_loop_accounts (self : Trainer) (max_steps : option Z) (ep : Z)
  (ds : list Batch) (i : nat) (w : world) :
  let res := batch_loop self max_steps ep i ds w in
  global_loss (state res.1.2) =
    foldl py_add (global_loss (state w)) (printed_losses res.2) ∧
  (grad_accum self ≠ 0 →
   step_calls_of res.2 =
   concat (replicate (length (processed res.2)) (step_calls self))).
Proof.
  revert i w. induction ds as [|b rest IH]; intros i w; [done|].
  cbn zeta. rewrite batch_loop_cons, train_step_unfold, py_truediv_int.
  destruct (step_calls_summary self) as (Hpl & Hsc & _).
  destruct (Z.eqb_spec (grad_accum self) 0) as [Hg|Hg].
  { cbn [fst snd state]. by rewrite Hpl. }
  cbn zeta. set (bl := VFloat _). set (w2 := {| state := incr_steps _ |}).
  assert (Hone : printed_losses (step_calls self ++ [EPrint ep i bl]) = [bl]
    ∧ step_calls_of (step_calls self ++ [EPrint ep i bl]) = step_calls self).
  { rewrite printed_losses_app, step_calls_of_app, Hpl, Hsc.
    split; [done|]. apply app_nil_r. }
  destruct Hone as (Hpl1 & Hsc1).
  destruct (reached_max_steps max_steps i).
  { cbn [fst snd]. rewrite Hpl1, Hsc1, processed_step.
    split; [done|]. intros _. cbn. by rewrite app_nil_r. }
  unfold py_mod. destruct (checkpoint_every self =? 0).
  { cbn [fst snd]. rewrite Hpl1, Hsc1, processed_step.
    split; [done|]. intros _. cbn. by rewrite app_nil_r. }
  specialize (IH (S i) w2). cbn zeta in IH.
  destruct (batch_loop self max_steps ep (S i) rest w2) as [[o w3] t3].
  cbn [fst snd] in *. destruct IH as (Hgl & Hcalls).
  destruct (accounts_iteration self ep i bl
              (Z.of_nat i mod checkpoint_every self) t3) as (-> & ->).
  rewrite processed_iteration.
  split; [by rewrite Hgl|].
  intros _. by rewrite (Hcalls Hg).
Qed.

Lemma epoch_loop_accounts (self : Trainer) (max_steps : option Z)
  (eps : list Z) (w : world) :
  let res := epoch_loop self max_steps eps w in
  global_loss (state res.1.2) =
    foldl py_add (global_loss (state w)) (printed_losses res.2) ∧
  (grad_accum self ≠ 0 →
   step_calls_of res.2 =
   concat (replicate (length (processed res.2)) (step_calls self))).
Proof.
  revert w. induction eps as [|ep rest IH]; intros w; [done|].
  cbn zeta. rewrite epoch_loop_cons, epoch_iteration_unfold. cbn zeta.
  set (t0 := if py_gt0 _ then _ else _).
  assert (Ht0 : printed_losses t0 = [] ∧ step_calls_of t0 = []
                ∧ processed t0 = [])
    by (subst t0; by destruct (py_gt0 _)).
  destruct Ht0 as (Hpl0 & Hsc0 & Hpr0).
  pose proof (batch_loop_accounts self max_steps ep
                (epoch_batches self (state w)) 0 w) as Hloop.
  cbn zeta in Hloop.
  destruct (batch_loop self max_steps ep 0 _ w) as [[[[]|e] w1] t1];
    cbn [fst snd] in *; destruct Hloop as (Hgl1 & Hc1).
  2:{ rewrite printed_losses_app, step_calls_of_app, processed_app,
        Hpl0, Hsc0, Hpr0. done. }
  set (w2 := {| state := incr_epoch _ |}).
  specialize (IH w2). cbn zeta in IH.
  destruct (epoch_loop self max_steps rest w2) as [[o w3] t3].
  cbn [fst snd] in *. destruct IH as (Hgl3 & Hc3).
  rewrite !printed_losses_app, !step_calls_of_app, !processed_app,
    Hpl0, Hsc0, Hpr0, foldl_app. cbn [app].
  split.
  - rewrite Hgl3. subst w2. cbn [state incr_epoch global_loss].
    by rewrite Hgl1.
  - intros Hg. rewrite (Hc1 Hg), (Hc3 Hg), length_app, replicate_add.
    by rewrite concat_app.
Qed.

(** X18: [global_loss] is a running sum. Whatever the outcome of [train],
    the state it leaves holds the [global_loss] the startup left (0, or
    the restored one) with every loss the run printed added in order. *)
Theorem train_global_loss_is_running_sum (self : Trainer) (fs : filesystem)
  (epochs : Z) (max_steps : option Z) (w : world) :
  global_loss (state (train self fs epochs max_steps w).1.2) =
  foldl py_add (global_loss (state (startup self fs w).1.2))
    (printed_losses (train self fs epochs max_steps w).2).
Proof.
  rewrite train_cases.
  destruct (banner_silent self epochs max_steps (objs w)) as (Hb & _).
  destruct (startup_silent self fs w) as (Hs & _).
  destruct (startup self fs w) as [[[[]|e] w1] t0]; cbn [fst snd] in *.
  2:{ by rewrite printed_losses_app, Hb, Hs. }
  destruct (py_range (epoch (state w1)) epochs) as [eps|e].
  2:{ cbn [fst snd]. by rewrite !printed_losses_app, Hb, Hs. }
  pose proof (epoch_loop_accounts self max_steps eps w1) as (Hgl & _).
  destruct (epoch_loop self max_steps eps w1) as [[[[]|e] w2] t1];
    cbn [fst snd] in *; rewrite !printed_losses_app, Hb, Hs, Hgl;
    cbn [app printed_losses full_save_events]; by rewrite ?app_nil_r.
Qed.

(** X19: one block of calls per batch. With a nonzero [grad_accum], the
    calls a run makes inside the accumulation block are, for each batch
    it prints and in this order: enter the block, forward, backward,
    optimizer step, scheduler step if and only if [use_scheduler],
    [zero_grad]. *)
Theorem train_step_calls_per_batch (self : Trainer) (fs : filesystem)
  (epochs : Z) (max_steps : option Z) (w : world) :
  grad_accum self ≠ 0 →
  step_calls_of (train self fs epochs max_steps w).2 =
  concat (replicate (length (processed (train self fs epochs max_steps w).2))
            (step_calls self)).
Proof.
  intros Hg. rewrite train_cases.
  destruct (banner_silent self epochs max_steps (objs w)) as (_ & Hb & _).
  destruct (banner_quiet self epochs max_steps (objs w)) as (_ & Hbp).
  destruct (startup_silent self fs w) as (_ & Hs & _).
  destruct (startup_quiet self fs w) as (_ & Hsp).
  destruct (startup self fs w) as [[[[]|e] w1] t0]; cbn [fst snd] in *.
  2:{ by rewrite step_calls_of_app, processed_app, Hb, Hs, Hbp, Hsp. }
  destruct (py_range (epoch (state w1)) epochs) as [eps|e].
  2:{ cbn [fst snd].
      by rewrite !step_calls_of_app, !processed_app, Hb, Hs, Hbp, Hsp. }
  pose proof (epoch_loop_accounts self max_steps eps w1) as (_ & Hc).
  specialize (Hc Hg).
  destruct (epoch_loop self max_steps eps w1) as [[[[]|e] w2] t1];
    cbn [fst snd] in *;
    rewrite !step_calls_of_app, !processed_app, Hb, Hs, Hbp, Hsp, Hc;
    cbn; by rewrite ?app_nil_r.
Qed.
End Accounts.

Lemma train_step_calls_per_batch_witness :
  grad_accum trainer3 ≠ 0 ∧
  step_calls_of
    (train trainer3 no_checkpoints 1 None (fresh_world 0%nat)).2 =
  concat (replicate
    (length (processed
       (train trainer3 no_checkpoints 1 None (fresh_world 0%nat)).2))
    (step_calls trainer3)).
Proof.
  split; [discriminate|].
  exact (train_step_calls_per_batch trainer3 no_checkpoints 1 None
           (fresh_world 0%nat) ltac:(discriminate)).
Defined.

(** ** The mean loss of a completed run *)

Section MeanLoss.
Context `{Collaborators}.

Lemma printed_losses_length (tr : list event) :
  length (printed_losses tr) = length (processed tr).
Proof.
  induction tr as [|e tr IH]; [done|].
  destruct e; cbn; by rewrite ?IH.
Qed.

Lemma keep_from_index_elem_of {A} (keep : nat → bool) (i : nat) (l : list A)
  (x : A) :
  x ∈ keep_from_index keep i l → x ∈ l.
Proof.
  revert i. induction l as [|y r IH]; intros i; cbn; [done|].
  destruct (keep i); rewrite ?elem_of_cons; intros Hin.
  - destruct Hin as [->|Hin]; [by left | right; by eapply IH].
  - apply elem_of_cons. right. by eapply IH.
Qed.

(** An epoch iterates batches of the loader. *)
Lemma epoch_batches_loader (self : Trainer) (s : TrainerState) (b : Batch) :
  b ∈ epoch_batches self s → b ∈ batches (dataset self).
Proof.
  unfold epoch_batches, skip_first_batches.
  destruct (py_gt0 (steps s)); [|done].
  destruct (steps s) as [n|x].
  - intros Hin. rewrite <- (take_drop (Z.to_nat n) (batches (dataset self))).
    apply elem_of_app. by right.
  - apply keep_from_index_elem_of.
Qed.

(** Every loss the batch loop prints is the loss of the model on one of
    the batches it iterates, divided by [grad_accum]. *)
Lemma batch_loop_losses (self : Trainer) (max_steps : option Z) (ep : Z)
  (ds : list Batch) (i : nat) (w : world) :
  (∀ b, b ∈ ds → b ∈ batches (dataset self)) →
  Forall (is_batch_loss self)
    (printed_losses (batch_loop self max_steps ep i ds w).2).
Proof.
  revert i w. induction ds as [|b rest IH]; intros i w Hds; [by constructor|].
  rewrite batch_loop_cons, train_step_unfold, py_truediv_int.
  destruct (step_calls_summary self) as (Hpl & _ & _).
  destruct (grad_accum self =? 0).
  { cbn [snd]. rewrite Hpl. constructor. }
  cbn zeta. set (bl := VFloat _). set (w2 := {| state := incr_steps _ |}).
  assert (Hbl : is_batch_loss self bl).
  { exists (objs w), b. split; [|done]. apply Hds. by left. }
  assert (Hone : printed_losses (step_calls self ++ [EPrint ep i bl]) = [bl])
    by (by rewrite printed_losses_app, Hpl).
  destruct (reached_max_steps max_steps i).
  { cbn [snd]. rewrite Hone. by repeat constructor. }
  unfold py_mod. destruct (checkpoint_every self =? 0).
  { cbn [snd]. rewrite Hone. by repeat constructor. }
  assert (Hrest : ∀ b', b' ∈ rest → b' ∈ batches (dataset self))
    by (intros b' Hb'; apply Hds; by right).
  specialize (IH (S i) w2 Hrest).
  destruct (batch_loop self max_steps ep (S i) rest w2) as [[o w3] t3].
  cbn [snd] in *.
  destruct (accounts_iteration self ep i bl
              (Z.of_nat i mod checkpoint_every self) t3) as (-> & _).
  by constructor.
Qed.

Lemma epoch_loop_losses (self : Trainer) (max_steps : option Z)
  (eps : list Z) (w : world) :
  Forall (is_batch_loss self)
    (printed_losses (epoch_loop self max_steps eps w).2).
Proof.
  revert w. induction eps as [|ep rest IH]; intros w; [by constructor|].
  rewrite epoch_loop_cons, epoch_iteration_unfold. cbn zeta.
  set (t0 := if py_gt0 _ then _ else _).
  assert (Ht0 : printed_losses t0 = [])
    by (subst t0; by destruct (py_gt0 _)).
  pose proof (batch_loop_losses self max_steps ep
                (epoch_batches self (state w)) 0 w
                (epoch_batches_loader self (state w))) as Hloop.
  destruct (batch_loop self max_steps ep 0 _ w) as [[[[]|e] w1] t1];
    cbn [snd] in *.
  2:{ by rewrite printed_losses_app, Ht0. }
  set (w2 := {| state := incr_epoch _ |}). specialize (IH w2).
  destruct (epoch_loop self max_steps rest w2) as [[o w3] t3].
  cbn [snd] in *. rewrite !printed_losses_app, Ht0. cbn [app].
  by apply Forall_app.
Qed.

(** C4: take a run whose loop completes (the exit hook is removed) and
    whose [save_state] calls all return, the final one included. [train]
    then returns [global_loss / steps] of the final state. That
    [global_loss] is the one the startup left (0 unless a checkpoint was
    restored) with the loss of every batch gone through added in order,
    each the loss of the model on a batch of the loader divided by
    [grad_accum]. The step counter is the one the startup left plus the
    number of those batches, so the division raises [ZeroDivisionError]
    exactly when the run started at step 0 and went through no batch. *)
Theorem C4_train_returns_mean_loss (self : Trainer) (fs : filesystem)
  (epochs : Z) (max_steps : option Z) (w : world) :
  EAtexitUnregister ∈ (train self fs epochs max_steps w).2 →
  saves_succeed self fs (train self fs epochs max_steps w).2 = true →
  let res := train self fs epochs max_steps w in
  ∃ (w1 : world) (t0 : list event),
    startup self fs w = (Return tt, w1, t0) ∧
    (load_checkpoint self = false → w1 = w) ∧
    res.1.1 =
      py_truediv (global_loss (state res.1.2)) (steps (state res.1.2)) ∧
    global_loss (state res.1.2) =
      foldl py_add (global_loss (state w1)) (printed_losses res.2) ∧
    Forall (is_batch_loss self) (printed_losses res.2) ∧
    length (printed_losses res.2) = length (processed res.2) ∧
    ∀ s0 : Z,
      steps (state w1) = VInt s0 →
      0 ≤ s0 →
      let n := s0 + Z.of_nat (length (processed res.2)) in
      steps (state res.1.2) = VInt n ∧
      (res.1.1 = Raise ZeroDivisionError ↔ s0 = 0 ∧ processed res.2 = []) ∧
      (n ≠ 0 →
       res.1.1 =
         Return (VFloat (float_div (to_float (global_loss (state res.1.2)))
                           (float_of_int n)))).
Proof.
  cbn zeta. intros Hin _. revert Hin.
  pose proof (printed_losses_length (train self fs epochs max_steps w).2)
    as Hlen. revert Hlen.
  rewrite train_cases.
  destruct (banner_quiet self epochs max_steps (objs w)) as (Hbanner & Hpb).
  destruct (startup_quiet self fs w) as (Hstart & Hps).
  destruct (banner_silent self epochs max_steps (objs w)) as (Hlb & _).
  destruct (startup_silent self fs w) as (Hls & _).
  assert (Hw : load_checkpoint self = false → (startup self fs w).1.2 = w).
  { intros Hl. by rewrite (startup_no_resume self fs w Hl). }
  destruct (startup self fs w) as [[[[]|e] w1] t0]; cbn [fst snd] in *.
  2:{ intros _ Hin. exfalso. revert Hin. not_in_app. }
  destruct (py_range (epoch (state w1)) epochs) as [eps|e].
  2:{ cbn [snd]. intros _ Hin. exfalso. revert Hin. not_in_app. }
  pose proof (epoch_loop_counts self max_steps eps w1) as Hcount.
  pose proof (epoch_loop_accounts self max_steps eps w1) as (Hsum & _).
  pose proof (epoch_loop_losses self max_steps eps w1) as Hlosses.
  cbn zeta in Hcount.
  destruct (epoch_loop self max_steps eps w1) as [[[[]|e] w2] t1];
    cbn [fst snd] in *; destruct Hcount as (Hs2 & Hnot); intros Hlen Hin.
  2:{ exfalso. revert Hin. not_in_app. }
  assert (Hpl : printed_losses
            (train_banner self epochs max_steps (objs w) ++ t0
               ++ [EAtexitRegister] ++ t1 ++ [EAtexitUnregister]
               ++ full_save_events self) = printed_losses t1).
  { rewrite !printed_losses_app, Hlb, Hls.
    cbn [printed_losses app full_save_events]. by rewrite app_nil_r. }
  exists w1, t0. rewrite Hpl in *.
  split_and!; [done | done | done | done | done | done |].
  intros s0 Hs0 Hpos.
  rewrite !processed_app, Hpb, Hps. cbn [processed app full_save_events].
  rewrite app_nil_r.
  rewrite Hs2, Hs0, steps_after_int, py_truediv_int.
  set (n := s0 + Z.of_nat (length (processed t1))).
  split_and!; try done.
  - destruct (Z.eqb_spec n 0) as [Hn|Hn].
    + split; [intros _|done].
      subst n. split; [lia|]. apply length_zero_iff_nil. lia.
    + split; [done|]. intros [-> Hnil].
      subst n. rewrite Hnil in Hn. by cbn in Hn.
  - intros Hn. apply Z.eqb_neq in Hn. by rewrite Hn.
Qed.
End MeanLoss.

Lemma C4_train_returns_mean_loss_witness :
  EAtexitUnregister ∈
    (train trainer3 no_checkpoints 1 None (fresh_world 0%nat)).2 ∧
  saves_succeed trainer3 no_checkpoints
    (train trainer3 no_checkpoints 1 None (fresh_world 0%nat)).2 = true ∧
  (train trainer3 no_checkpoints 1 None (fresh_world 0%nat)).1.1 =
    py_truediv
      (global_loss (state
         (train trainer3 no_checkpoints 1 None (fresh_world 0%nat)).1.2))
      (steps (state
         (train trainer3 no_checkpoints 1 None (fresh_world 0%nat)).1.2)).
Proof.
  split_and!; [exact trainer3_loop_completes | reflexivity |].
  pose proof (C4_train_returns_mean_loss trainer3 no_checkpoints 1 None
                (fresh_world 0%nat) trainer3_loop_completes eq_refl)
    as (w1 & t0 & _ & _ & Hres & _).
  exact Hres.
Defined.

(** A resume that takes [checkpoint_9] for the latest of eleven: the
    counter is set to 10, no epoch is left, and the final [save_state]
    finds [checkpoint_10] in the directory. *)
Example resumed_final_save_collides :
  EAtexitUnregister ∈
    (train (resuming trainer3) ten_checkpoints 1 None (fresh_world 0%nat)).2 ∧
  saves_succeed (resuming trainer3) ten_checkpoints
    (train (resuming trainer3) ten_checkpoints 1 None (fresh_world 0%nat)).2
  = false.
Proof.
  split; [|reflexivity].
  apply list_elem_of_In. vm_compute.
  repeat (first [left; reflexivity | right]).
Qed.

(** A run that does not resume in a directory that holds [checkpoint_0]:
    the [save_state] of the startup finds its entry. *)
Example startup_save_collides :
  saves_succeed trainer3 stale_checkpoint
    (startup trainer3 stale_checkpoint (fresh_world 0%nat)).2 = false.
Proof. reflexivity. Qed.

(** ** Several epochs, the last checkpoint, the sign of the cadence *)

Section WholeRuns.
Context `{Collaborators}.

Lemma batch_loop_no_skip (self : Trainer) (max_steps : option Z) (ep : Z)
  (ds : list Batch) (i : nat) (w : world) :
  skips (batch_loop self max_steps ep i ds w).2 = [].
Proof.
  revert i w. induction ds as [|b rest IH]; intros i w; [done|].
  rewrite batch_loop_cons, train_step_unfold, py_truediv_int.
  destruct (step_calls_summary self) as (_ & _ & Hsk).
  destruct (grad_accum self =? 0); [done|]. cbn zeta.
  destruct (reached_max_steps max_steps i).
  { cbn [snd]. by rewrite skips_app, Hsk. }
  unfold py_mod. destruct (checkpoint_every self =? 0).
  { cbn [snd]. by rewrite skips_app, Hsk. }
  set (w2 := {| state := incr_steps _ |}). specialize (IH (S i) w2).
  destruct (batch_loop self max_steps ep (S i) rest w2) as [[o w3] t3].
  cbn [snd] in *. rewrite !skips_app, Hsk, IH.
  by destruct (_ =? 0).
Qed.

(** Once the step counter has reached the size of the loader, an epoch
    has no batch left to iterate. *)
Lemma epoch_loop_exhausted (self : Trainer) (max_steps : option Z)
  (eps : list Z) (w : world) (s : Z) :
  steps (state w) = VInt s →
  Z.of_nat (length (batches (dataset self))) ≤ s →
  let res := epoch_loop self max_steps eps w in
  res.1.1 = Return tt ∧
  processed res.2 = [] ∧
  steps (state res.1.2) = VInt s ∧
  skips res.2 = (if 0 <? s then replicate (length eps) (VInt s) else []).
Proof.
  intros Hs HB. revert w Hs. induction eps as [|ep rest IH]; intros w Hs.
  { cbn. split_and!; try done. by destruct (0 <? s). }
  cbn zeta. rewrite epoch_loop_cons, epoch_iteration_unfold. cbn zeta.
  assert (Hnone : epoch_batches self (state w) = []).
  { unfold epoch_batches. rewrite Hs. cbn [py_gt0 skip_first_batches].
    destruct (Z.ltb_spec 0 s).
    - apply drop_ge. lia.
    - apply nil_length_inv. lia. }
  rewrite Hnone, Hs. cbn [batch_loop ret py_gt0].
  set (w2 := {| state := incr_epoch _ |}).
  specialize (IH w2 Hs). cbn zeta in IH.
  destruct (epoch_loop self max_steps rest w2) as [[o w3] t3].
  cbn [fst snd] in *. destruct IH as (-> & Hp & Hst & Hsk).
  rewrite processed_app, skips_app, app_nil_r, Hp, Hsk.
  split_and!; try done; by destruct (0 <? s).
Qed.

(** X20: the step counter is never reset, so a fresh run of several
    epochs trains on the loader once. Without [max_steps], the first epoch
    goes through the [B] batches; every later epoch asks the accelerator
    to skip [B] batches and goes through none. The run ends with [B] steps
    counted, whatever the number of epochs. *)
Theorem fresh_run_trains_first_epoch_only (self : Trainer) (fs : filesystem)
  (epochs : Z) (o : Objs) :
  load_checkpoint self = false →
  grad_accum self ≠ 0 →
  checkpoint_every self ≠ 0 →
  1 ≤ epochs →
  let B := length (batches (dataset self)) in
  let res := _train_accelerate self fs epochs None (fresh_world o) in
  processed res.2 = map (λ j, (0, j)) (seq 0 B) ∧
  steps (state res.1.2) = VInt (Z.of_nat B) ∧
  skips res.2 =
    (if 0 <? Z.of_nat B
     then replicate (Z.to_nat (epochs - 1)) (VInt (Z.of_nat B)) else []).
Proof.
  intros Hl Hg HN He B res. subst res.
  rewrite train_accelerate_unfold, (startup_no_resume self fs _ Hl),
    training_loop_unfold.
  cbn [py_range fresh_world state epoch TrainerState_init].
  replace (Z.to_nat (epochs - 0)) with (S (Z.to_nat (epochs - 1))) by lia.
  cbn [seq map]. change (0 + Z.of_nat 0) with 0.
  set (eps := map _ _).
  assert (Heps : length eps = Z.to_nat (epochs - 1))
    by (subst eps; by rewrite length_map, length_seq).
  rewrite epoch_loop_cons, epoch_iteration_unfold.
  unfold epoch_batches.
  cbn [py_gt0 fresh_world state steps TrainerState_init].
  replace (0 <? 0) with false by done. cbn zeta.
  set (w0 := fresh_world o).
  pose proof (batch_loop_no_break self None 0 (batches (dataset self)) 0 w0
                None Hg HN ltac:(done)) as (Hret & Hproc & _).
  pose proof (batch_loop_counts self None 0 (batches (dataset self)) 0 w0)
    as (Hsteps & _ & _).
  pose proof (batch_loop_no_skip self None 0 (batches (dataset self)) 0 w0)
    as Hnoskip.
  destruct (batch_loop self None 0 0 (batches (dataset self)) w0)
    as [[r w1] t1].
  cbn [fst snd] in *. subst r.
  rewrite Hproc, length_map, length_seq in Hsteps.
  change (steps (state w0)) with (VInt 0) in Hsteps.
  rewrite steps_after_int, Z.add_0_l in Hsteps. fold B in Hsteps, Hproc.
  lazy beta iota.
  set (w2 := {| state := incr_epoch _ |}).
  pose proof (epoch_loop_exhausted self None eps w2 (Z.of_nat B) Hsteps
                ltac:(subst B; lia)) as Hrest.
  cbn zeta in Hrest.
  destruct (epoch_loop self None eps w2) as [[r3 w3] t3].
  cbn [fst snd] in *. destruct Hrest as (-> & Hp3 & Hs3 & Hsk3).
  cbn [fst snd].
  rewrite !processed_app, !skips_app, Hproc, Hp3, Hnoskip, Hsk3, Heps.
  split_and!; [cbn; by rewrite !app_nil_r | done |].
  cbn. by rewrite !app_nil_r.
Qed.

(** X21: a run whose loop completes and whose [save_state] calls all
    return ends by removing the exit hook and then writing one full
    checkpoint, dist export included; the hook was registered before and
    is removed once. The division that follows can still raise: the
    checkpoint is written either way. *)
Theorem completed_run_ends_with_full_checkpoint (self : Trainer)
  (fs : filesystem) (epochs : Z) (max_steps : option Z) (w : world) :
  EAtexitUnregister ∈ (train self fs epochs max_steps w).2 →
  saves_succeed self fs (train self fs epochs max_steps w).2 = true →
  ∃ pre : list event,
    (train self fs epochs max_steps w).2 =
      pre ++ [EAtexitUnregister] ++ full_save_events self ∧
    (EAtexitUnregister ∉ pre) ∧
    EAtexitRegister ∈ pre.
Proof.
  rewrite train_cases.
  destruct (banner_quiet self epochs max_steps (objs w)) as (Hbanner & _).
  destruct (startup_quiet self fs w) as (Hstart & _).
  destruct (startup self fs w) as [[[[]|e] w1] t0]; cbn [fst snd] in *.
  2:{ intros Hin _. exfalso. revert Hin. not_in_app. }
  destruct (py_range (epoch (state w1)) epochs) as [eps|e].
  2:{ cbn [snd]. intros Hin _. exfalso. revert Hin. not_in_app. }
  pose proof (epoch_loop_counts self max_steps eps w1) as (_ & Hnot).
  destruct (epoch_loop self max_steps eps w1) as [[[[]|e] w2] t1];
    cbn [fst snd] in *; intros Hin _.
  2:{ exfalso. revert Hin. not_in_app. }
  exists (train_banner self epochs max_steps (objs w) ++ t0
          ++ [EAtexitRegister] ++ t1).
  split_and!.
  - by rewrite <- !app_assoc.
  - not_in_app.
  - rewrite !elem_of_app. do 2 right. left. apply list_elem_of_here.
Qed.

Lemma py_mod_opp_zero (j n : Z) : (j mod - n =? 0) = (j mod n =? 0).
Proof.
  destruct (Z.eqb_spec (j mod n) 0) as [Hz|Hnz].
  - apply Z.eqb_eq. by apply Z_mod_zero_opp_r.
  - apply Z.eqb_neq. intros Hz. apply Hnz.
    apply Z_mod_zero_opp_r in Hz. by rewrite Z.opp_involutive in Hz.
Qed.

(** X22: the cadence test [batch_idx % checkpoint_every == 0] is a test
    of divisibility, so a negative [checkpoint_every] checkpoints exactly
    as its absolute value does: the batch loop of a trainer with cadence
    [-n] is the batch loop of the same trainer with cadence [n]. *)
Theorem negative_cadence_checkpoints_alike (self : Trainer) (n : Z)
  (max_steps : option Z) (ep : Z) (ds : list Batch) (i : nat) (w : world) :
  batch_loop (with_checkpoint_every self (- n)) max_steps ep i ds w =
  batch_loop (with_checkpoint_every self n) max_steps ep i ds w.
Proof.
  revert i w. induction ds as [|b rest IH]; intros i w; [done|].
  rewrite !batch_loop_cons.
  change (train_step (with_checkpoint_every self (- n)) ep i b w)
    with (train_step (with_checkpoint_every self n) ep i b w).
  destruct (train_step (with_checkpoint_every self n) ep i b w)
    as [[[[]|e] w1] t1]; [|done].
  cbn zeta. destruct (reached_max_steps max_steps i); [done|].
  cbn [checkpoint_every with_checkpoint_every]. unfold py_mod.
  replace (- n =? 0) with (n =? 0)
    by (destruct (Z.eqb_spec n 0), (Z.eqb_spec (- n) 0); lia).
  destruct (n =? 0); [done|].
  rewrite py_mod_opp_zero, IH.
  change (full_save_events (with_checkpoint_every self (- n)))
    with (full_save_events (with_checkpoint_every self n)).
  done.
Qed.
End WholeRuns.

Lemma fresh_run_trains_first_epoch_only_witness :
  load_checkpoint trainer3 = false ∧
  grad_accum trainer3 ≠ 0 ∧
  checkpoint_every trainer3 ≠ 0 ∧
  1 ≤ 3 ∧
  steps (state (_train_accelerate trainer3 no_checkpoints 3 None
                  (fresh_world 0%nat)).1.2)
  = VInt (Z.of_nat (length (batches (dataset trainer3)))).
Proof.
  split_and!; [reflexivity | discriminate | discriminate | lia |].
  exact (proj1 (proj2 (fresh_run_trains_first_epoch_only trainer3
           no_checkpoints 3 0%nat eq_refl ltac:(discriminate)
           ltac:(discriminate) ltac:(lia)))).
Defined.

Lemma completed_run_ends_with_full_checkpoint_witness :
  EAtexitUnregister ∈
    (train trainer3 no_checkpoints 0 None (fresh_world 0%nat)).2 ∧
  saves_succeed trainer3 no_checkpoints
    (train trainer3 no_checkpoints 0 None (fresh_world 0%nat)).2 = true ∧
  ∃ pre : list event,
    (train trainer3 no_checkpoints 0 None (fresh_world 0%nat)).2 =
      pre ++ [EAtexitUnregister] ++ full_save_events trainer3.
Proof.
  assert (Hin : EAtexitUnregister ∈
    (train trainer3 no_checkpoints 0 None (fresh_world 0%nat)).2).
  { apply list_elem_of_In. vm_compute.
    repeat (first [left; reflexivity | right]). }
  split_and!; [exact Hin | reflexivity |].
  pose proof (completed_run_ends_with_full_checkpoint trainer3 no_checkpoints
                0 None (fresh_world 0%nat) Hin eq_refl) as (pre & Hpre & _).
  by exists pre.
Defined.
